(** * portfolio.py: a cardinality constrained long/short mean-variance model

    A shallow embedding of [portfolio.py] and the properties of the model it
    builds and of the figures it prints.

    The script reads two tables, declares a Pyomo model (one index set, four
    parameters, four families of variables, one objective, eight families of
    constraints), hands it to an external solver and derives the printed
    figures from the values the solver left in the variables.

    Conventions of the embedding:
    - Python floats are modelled by rationals ([Q]); rounding is not
      modelled.  The special values of numpy's floats (nan, inf) are kept as
      constructors of [np_float64], since the last figure is a numpy division.
    - A Pyomo expression is a term of [expr]; Python's arithmetic on two plain
      numbers yields a plain number, on anything else an expression node.
    - A Python exception is a [Raise] in the [result] monad.
    - The solver is a parameter: it maps the built model to a status and to
      the values of the variables ([None] where it left a variable unset). *)

From Stdlib Require Import List String Bool ZArith QArith Lia Lqa.
Import ListNotations.

Open Scope Q_scope.

(* ================================================================== *)
(** ** Exceptions *)

Inductive exn : Type := KeyError | ValueError | TypeError.

Inductive result (A : Type) : Type :=
| Ok (a : A)
| Raise (e : exn).

Arguments Ok {A} a.
Arguments Raise {A} e.

Definition bind {A B : Type} (c : result A) (k : A -> result B) : result B :=
  match c with
  | Ok a => k a
  | Raise e => Raise e
  end.

Notation "x <- c ;; k" := (bind c (fun x => k))
  (at level 61, c at next level, right associativity).

(** A comprehension whose body may raise: the first exception wins. *)
Fixpoint for_each {A B : Type} (f : A -> result B) (l : list A)
  : result (list B) :=
  match l with
  | [] => Ok []
  | x :: t => y <- f x ;; ys <- for_each f t ;; Ok (y :: ys)
  end.

(* ================================================================== *)
(** ** Pyomo expressions, as Python builds them *)

Inductive var : Type :=
| allocation_s (i : string)
| allocation_l (i : string)
| d_l (i : string)
| d_s (i : string).

Inductive expr : Type :=
| Num (q : Q)
| V (x : var)
| Neg (a : expr)
| Add (a b : expr)
| Sub (a b : expr)
| Mul (a b : expr).

Inductive relation : Type :=
| Le (a b : expr)
| Ge (a b : expr).

(** What a constraint rule returns: a comparison of two plain numbers is a
    Python [bool], any other comparison is a relational expression. *)
Inductive py_value : Type :=
| PyBool (b : bool)
| PyRel (r : relation).

Definition py_neg (a : expr) : expr :=
  match a with
  | Num x => Num (- x)
  | _ => Neg a
  end.

Definition py_add (a b : expr) : expr :=
  match a, b with
  | Num x, Num y => Num (x + y)
  | _, _ => Add a b
  end.

Definition py_sub (a b : expr) : expr :=
  match a, b with
  | Num x, Num y => Num (x - y)
  | _, _ => Sub a b
  end.

Definition py_mul (a b : expr) : expr :=
  match a, b with
  | Num x, Num y => Num (x * y)
  | _, _ => Mul a b
  end.

Definition py_le (a b : expr) : py_value :=
  match a, b with
  | Num x, Num y => PyBool (Qle_bool x y)
  | _, _ => PyRel (Le a b)
  end.

Definition py_ge (a b : expr) : py_value :=
  match a, b with
  | Num x, Num y => PyBool (Qle_bool y x)
  | _, _ => PyRel (Ge a b)
  end.

Definition is_num (e : expr) : bool :=
  match e with
  | Num _ => true
  | _ => false
  end.

(** Python's [sum]: starts from the integer 0 and adds from the left. *)
Definition py_sum (l : list expr) : expr := fold_left py_add l (Num 0).

(** [sum] over plain numbers. *)
Definition num_sum (l : list Q) : Q := fold_left Qplus l 0.

(* ================================================================== *)
(** ** Input tables and Python dictionaries *)

(** One line of [prt_array_data.txt]. *)
Record row : Type := {
  col_tickers : string;
  col_returns : Q;
  col_ubounds : Q;
  col_lbounds : Q
}.

(** The two tables read at the top of the script.  [cov_df i j] is
    [cov_df.loc[i, j]]: [None] where the table has no such label. *)
Record tables : Type := {
  array_df : list row;
  cov_df : string -> string -> option Q
}.

Definition investment_strs (t : tables) : list string :=
  map col_tickers (array_df t).
Definition return_floats (t : tables) : list Q := map col_returns (array_df t).
Definition ubounds (t : tables) : list Q := map col_ubounds (array_df t).
Definition lbounds (t : tables) : list Q := map col_lbounds (array_df t).

(** [dict(zip(keys, values))]; a later binding of a key replaces an earlier
    one, so lookup keeps the last match. *)
Definition dict : Type := list (string * Q).

Definition dict_zip (keys : list string) (values : list Q) : dict :=
  combine keys values.

Definition dict_get (d : dict) (k : string) : option Q :=
  fold_left
    (fun acc kv => if String.eqb (fst kv) k then Some (snd kv) else acc)
    d None.

(** The value bound to a key, 0 where there is none; used to state what a
    successful lookup returned. *)
Definition dict_value (d : dict) (k : string) : Q :=
  match dict_get d k with
  | Some q => q
  | None => 0
  end.

(** [Set(initialize=l)]: the members of [l], each once. *)
Fixpoint set_from (seen l : list string) : list string :=
  match l with
  | [] => []
  | x :: t =>
      if existsb (String.eqb x) seen then set_from seen t
      else x :: set_from (x :: seen) t
  end.

Definition Set_initialize (l : list string) : list string := set_from [] l.

(* ================================================================== *)
(** ** User defined constants *)

Definition net_upper_long_bound : Q := 1.
Definition net_lower_long_bound : Q := 1 # 2.
Definition net_upper_short_bound : Q := 1.
Definition net_lower_short_bound : Q := 1 # 2.
Definition card : Q := 15.
Definition rho : Q := 1 # 2.

(* ================================================================== *)
(** ** Sets and parameters of the model *)

Record model_data : Type := {
  investments : list string;
  returns : dict;
  upper_asset_bounds : dict;
  lower_asset_bounds : dict;
  covariance_mat : list ((string * string) * Q)
}.

(** [p[i]] for an indexed parameter initialised from a dictionary: reading an
    index that has no value raises. *)
Definition param_get (p : dict) (i : string) : result Q :=
  match dict_get p i with
  | Some q => Ok q
  | None => Raise ValueError
  end.

Definition cov_init (t : tables) (i j : string) : result Q :=
  match cov_df t i j with
  | Some c => Ok c
  | None => Raise KeyError
  end.

Definition declare_data (t : tables) : result model_data :=
  let invs := Set_initialize (investment_strs t) in
  let ret_dict := dict_zip (investment_strs t) (return_floats t) in
  let ub_dict := dict_zip (investment_strs t) (ubounds t) in
  let lb_dict := dict_zip (investment_strs t) (lbounds t) in
  cov <- for_each
           (fun ij => c <- cov_init t (fst ij) (snd ij) ;; Ok (ij, c))
           (list_prod invs invs) ;;
  Ok {| investments := invs;
        returns := ret_dict;
        upper_asset_bounds := ub_dict;
        lower_asset_bounds := lb_dict;
        covariance_mat := cov |}.

(* ================================================================== *)
(** ** Decision variables *)

Inductive domain : Type := NonNegativeReals | Boolean.

Definition Var (mk : string -> var) (index : list string) (dom : domain)
  : list (var * domain) :=
  map (fun i => (mk i, dom)) index.

(* ================================================================== *)
(** ** Objective and constraint rules *)

Definition net_position (i : string) : expr :=
  py_sub (V (allocation_l i)) (V (allocation_s i)).

Definition obj_rule (m : model_data) : result expr :=
  ret_terms <- for_each
                 (fun i => r <- param_get (returns m) i ;;
                           Ok (py_mul (Num r) (net_position i)))
                 (investments m) ;;
  let cov_terms :=
    map (fun e => py_mul (py_mul (Num (snd e)) (net_position (fst (fst e))))
                         (net_position (snd (fst e))))
        (covariance_mat m) in
  Ok (py_sub (py_sum ret_terms) (py_mul (Num rho) (py_sum cov_terms))).

Definition lflag_rule (m : model_data) (i : string) : result py_value :=
  ub <- param_get (upper_asset_bounds m) i ;;
  Ok (py_le (V (allocation_l i)) (py_mul (V (d_l i)) (Num ub))).

Definition sflag_rule (m : model_data) (i : string) : result py_value :=
  lb <- param_get (lower_asset_bounds m) i ;;
  Ok (py_ge (py_neg (V (allocation_s i))) (py_mul (V (d_s i)) (Num lb))).

Definition card_rule (m : model_data) : result py_value :=
  Ok (py_le
        (py_sum (map (fun i => py_add (V (d_l i)) (V (d_s i))) (investments m)))
        (Num card)).

Definition binary_rule (m : model_data) (i : string) : result py_value :=
  Ok (py_le (py_add (V (d_l i)) (V (d_s i))) (Num 1)).

Definition total_long (m : model_data) : expr :=
  py_sum (map (fun i => V (allocation_l i)) (investments m)).

Definition total_short (m : model_data) : expr :=
  py_sum (map (fun i => V (allocation_s i)) (investments m)).

(** The four aggregate rules take an index [i] that the generator inside
    shadows: the rule's result is the same at every index. *)
Definition netlong_rule_ub (m : model_data) (i : string) : result py_value :=
  Ok (py_le (total_long m) (Num net_upper_long_bound)).

Definition netlong_rule_lb (m : model_data) (i : string) : result py_value :=
  Ok (py_le (total_long m) (Num net_upper_long_bound)).

Definition netshrt_rule_ub (m : model_data) (i : string) : result py_value :=
  Ok (py_le (total_short m) (Num net_upper_short_bound)).

Definition netshrt_rule_lb (m : model_data) (i : string) : result py_value :=
  Ok (py_ge (total_short m) (Num net_lower_short_bound)).

(* ================================================================== *)
(** ** Model components *)

Inductive sense_t : Type := minimize | maximize.

Record objective : Type := {
  obj_expr : expr;
  obj_sense : sense_t
}.

Definition Objective (rule : result expr) (s : sense_t) : result objective :=
  e <- rule ;; Ok {| obj_expr := e; obj_sense := s |}.

(** Pyomo refuses a rule that resolves to a plain Boolean. *)
Definition as_constraint (v : py_value) : result relation :=
  match v with
  | PyRel r => Ok r
  | PyBool _ => Raise ValueError
  end.

Definition Constraint (rule : result py_value) : result relation :=
  v <- rule ;; as_constraint v.

Definition Constraint_indexed (index : list string)
  (rule : string -> result py_value) : result (list (string * relation)) :=
  for_each (fun i => r <- Constraint (rule i) ;; Ok (i, r)) index.

Record model : Type := {
  data : model_data;
  variables : list (var * domain);
  OBJ : objective;
  cons_long_invest_ubs : list (string * relation);
  cons_shrt_invest_lbs : list (string * relation);
  cons_cardinality_ubs : relation;
  cons_long_shrt_none : list (string * relation);
  net_long_upper : list (string * relation);
  net_long_lower : list (string * relation);
  net_short_upper : list (string * relation);
  net_short_lower : list (string * relation)
}.

(** [m.construct()]: the components are built in the order of their
    declaration. *)
Definition construct (t : tables) : result model :=
  m <- declare_data t ;;
  let idx := investments m in
  let vars := Var allocation_s idx NonNegativeReals
              ++ Var allocation_l idx NonNegativeReals
              ++ Var d_l idx Boolean
              ++ Var d_s idx Boolean in
  o <- Objective (obj_rule m) maximize ;;
  c1 <- Constraint_indexed idx (lflag_rule m) ;;
  c2 <- Constraint_indexed idx (sflag_rule m) ;;
  c3 <- Constraint (card_rule m) ;;
  c4 <- Constraint_indexed idx (binary_rule m) ;;
  c5 <- Constraint_indexed idx (netlong_rule_ub m) ;;
  c6 <- Constraint_indexed idx (netlong_rule_lb m) ;;
  c7 <- Constraint_indexed idx (netshrt_rule_ub m) ;;
  c8 <- Constraint_indexed idx (netshrt_rule_lb m) ;;
  Ok {| data := m;
        variables := vars;
        OBJ := o;
        cons_long_invest_ubs := c1;
        cons_shrt_invest_lbs := c2;
        cons_cardinality_ubs := c3;
        cons_long_shrt_none := c4;
        net_long_upper := c5;
        net_long_lower := c6;
        net_short_upper := c7;
        net_short_lower := c8 |}.

Definition objectives (m : model) : list objective := [OBJ m].

(** Every constraint of the built model, in declaration order. *)
Definition constraints (m : model) : list relation :=
  map snd (cons_long_invest_ubs m)
  ++ map snd (cons_shrt_invest_lbs m)
  ++ [cons_cardinality_ubs m]
  ++ map snd (cons_long_shrt_none m)
  ++ map snd (net_long_upper m)
  ++ map snd (net_long_lower m)
  ++ map snd (net_short_upper m)
  ++ map snd (net_short_lower m).

(* ================================================================== *)
(** ** Meaning of expressions, relations and domains *)

Definition assignment : Type := var -> Q.

Fixpoint eval (v : assignment) (e : expr) : Q :=
  match e with
  | Num q => q
  | V x => v x
  | Neg a => - eval v a
  | Add a b => eval v a + eval v b
  | Sub a b => eval v a - eval v b
  | Mul a b => eval v a * eval v b
  end.

Definition holds (v : assignment) (r : relation) : Prop :=
  match r with
  | Le a b => eval v a <= eval v b
  | Ge a b => eval v b <= eval v a
  end.

Definition holdsb (v : assignment) (r : relation) : bool :=
  match r with
  | Le a b => Qle_bool (eval v a) (eval v b)
  | Ge a b => Qle_bool (eval v b) (eval v a)
  end.

Definition in_domain (dom : domain) (q : Q) : Prop :=
  match dom with
  | NonNegativeReals => 0 <= q
  | Boolean => q == 0 \/ q == 1
  end.

Definition in_domainb (dom : domain) (q : Q) : bool :=
  match dom with
  | NonNegativeReals => Qle_bool 0 q
  | Boolean => Qeq_bool q 0 || Qeq_bool q 1
  end.

(** An assignment is feasible for a model when every variable lies in its
    domain and every constraint holds. *)
Definition feasible (m : model) (v : assignment) : Prop :=
  Forall (fun xd => in_domain (snd xd) (v (fst xd))) (variables m)
  /\ Forall (holds v) (constraints m).

Definition feasibleb (m : model) (v : assignment) : bool :=
  forallb (fun xd => in_domainb (snd xd) (v (fst xd))) (variables m)
  && forallb (holdsb v) (constraints m).

(* ================================================================== *)
(** ** The solver and the figures derived from its values *)

(** How a solve may end. *)
Inductive SolutionStatus : Type :=
| Optimal | Infeasible | Unbounded | SolverError | TimedOut.

(** The [.value] of each variable after the solve; [None] is Python's [None],
    the value of a variable the solver did not set. *)
Definition values : Type := var -> option Q.

Definition solver : Type := model -> SolutionStatus * values.

(** Arithmetic on [x.value]: a [None] operand raises [TypeError]. *)
Definition value_of (vals : values) (x : var) : result Q :=
  match vals x with
  | Some q => Ok q
  | None => Raise TypeError
  end.

(** numpy's float64, with the values IEEE 754 adds to the finite ones. *)
Inductive np_float64 : Type :=
| fl_nan
| fl_inf (negative : bool)
| fl_fin (q : Q).

Definition Qneg_bool (q : Q) : bool := negb (Qle_bool 0 q).

Section Numpy.

(** The square root of a positive finite float, as numpy rounds it. *)
Variable sqrt_pos : Q -> Q.

(** [np.sqrt] on a finite number: nan below zero, zero at zero. *)
Definition np_sqrt (x : Q) : np_float64 :=
  if Qneg_bool x then fl_nan
  else if Qeq_bool x 0 then fl_fin 0
  else fl_fin (sqrt_pos x).

(** float64 times a finite Python float. *)
Definition np_mul (a : np_float64) (y : Q) : np_float64 :=
  match a with
  | fl_nan => fl_nan
  | fl_inf s =>
      if Qeq_bool y 0 then fl_nan else fl_inf (xorb s (Qneg_bool y))
  | fl_fin x => fl_fin (x * y)
  end.

(** float64 division: a zero divisor gives nan or an infinity (with a
    warning), never an exception. *)
Definition np_div (a b : np_float64) : np_float64 :=
  match a, b with
  | fl_nan, _ | _, fl_nan => fl_nan
  | fl_inf _, fl_inf _ => fl_nan
  | fl_inf s, fl_fin y => fl_inf (xorb s (Qneg_bool y))
  | fl_fin _, fl_inf _ => fl_fin 0
  | fl_fin x, fl_fin y =>
      if Qeq_bool y 0 then
        if Qeq_bool x 0 then fl_nan else fl_inf (Qneg_bool x)
      else fl_fin (x / y)
  end.

(** The figures the script prints, under the names it computes them. *)
Record report : Type := {
  rs : Q;
  covs : Q;
  cards : Q;
  tlong : Q;
  clong : Q;
  tshrt : Q;
  cshrt : Q;
  ann_sharpe : np_float64;
  daily_vol : np_float64;
  allocations : list (string * Q * Q)
}.

Definition net_value (vals : values) (i : string) : result Q :=
  l <- value_of vals (allocation_l i) ;;
  s <- value_of vals (allocation_s i) ;;
  Ok (l - s).

(** The lines after the solve, in their order. *)
Definition view_results (m : model) (vals : values) : result report :=
  let d := data m in
  rs_terms <- for_each
                (fun i => r <- param_get (returns d) i ;;
                          n <- net_value vals i ;;
                          Ok (r * n))
                (investments d) ;;
  let rs := num_sum rs_terms in
  covs_terms <- for_each
                  (fun e => ni <- net_value vals (fst (fst e)) ;;
                            nj <- net_value vals (snd (fst e)) ;;
                            Ok (snd e * ni * nj))
                  (covariance_mat d) ;;
  let covs := num_sum covs_terms in
  cards_terms <- for_each
                   (fun i => a <- value_of vals (d_l i) ;;
                             b <- value_of vals (d_s i) ;;
                             Ok (a + b))
                   (investments d) ;;
  tlong_terms <- for_each
                   (fun i => a <- value_of vals (d_l i) ;;
                             b <- value_of vals (allocation_l i) ;;
                             Ok (a * b))
                   (investments d) ;;
  clong_terms <- for_each (fun i => value_of vals (d_l i)) (investments d) ;;
  tshrt_terms <- for_each
                   (fun i => a <- value_of vals (d_s i) ;;
                             b <- value_of vals (allocation_s i) ;;
                             Ok (a * b))
                   (investments d) ;;
  cshrt_terms <- for_each (fun i => value_of vals (d_s i)) (investments d) ;;
  let ann_sharpe := np_div (np_mul (np_sqrt 252) rs) (np_sqrt covs) in
  allocs <- for_each
              (fun i => l <- value_of vals (allocation_l i) ;;
                        s <- value_of vals (allocation_s i) ;;
                        Ok (i, l, s))
              (investments d) ;;
  Ok {| rs := rs;
        covs := covs;
        cards := num_sum cards_terms;
        tlong := num_sum tlong_terms;
        clong := num_sum clong_terms;
        tshrt := num_sum tshrt_terms;
        cshrt := num_sum cshrt_terms;
        ann_sharpe := ann_sharpe;
        daily_vol := np_sqrt covs;
        allocations := allocs |}.

(** The whole script: build, solve, derive.  The object returned by
    [opt.solve] is bound to a name and not read again. *)
Definition script (t : tables) (opt_solve : solver) : result report :=
  m <- construct t ;;
  let results := fst (opt_solve m) in
  let vals := snd (opt_solve m) in
  view_results m vals.

End Numpy.

(* ================================================================== *)
(** ** Sample inputs *)

Open Scope string_scope.

(** A covariance table given by its entries. *)
Definition cov_table (entries : list (string * string * Q))
  (i j : string) : option Q :=
  match find (fun e => String.eqb (fst (fst e)) i && String.eqb (snd (fst e)) j)
             entries with
  | Some e => Some (snd e)
  | None => None
  end.

Definition mk_row (k : string) (r ub lb : Q) : row :=
  {| col_tickers := k; col_returns := r;
     col_ubounds := ub; col_lbounds := lb |}.

(** One asset whose short bound is given as a magnitude. *)
Definition one_asset : tables :=
  {| array_df := [mk_row "A" (1 # 1000) (1 # 10) (1 # 10)];
     cov_df := cov_table [("A", "A", 1 # 10000)] |}.

(** One asset whose short bound is given as a signed lower bound. *)
Definition one_asset_signed : tables :=
  {| array_df := [mk_row "A" (1 # 1000) 1 (- (1))];
     cov_df := cov_table [("A", "A", 1 # 10000)] |}.

(** Two assets, the first with a non-negative short bound, the second with a
    signed one. *)
Definition two_assets : tables :=
  {| array_df := [mk_row "A" (1 # 1000) (1 # 10) (1 # 10);
                  mk_row "B" (2 # 1000) 1 (- (1))];
     cov_df := cov_table [("A", "A", 1 # 10000); ("A", "B", 0);
                          ("B", "A", 0); ("B", "B", 2 # 10000)] |}.

(** Two assets with a covariance table that is not symmetric. *)
Definition two_assets_asym : tables :=
  {| array_df := [mk_row "A" (1 # 1000) (1 # 10) (1 # 10);
                  mk_row "B" (2 # 1000) 1 (- (1))];
     cov_df := cov_table [("A", "A", 1 # 10000); ("A", "B", 1);
                          ("B", "A", 2); ("B", "B", 2 # 10000)] |}.

Definition var_eqb (x y : var) : bool :=
  match x, y with
  | allocation_s i, allocation_s j
  | allocation_l i, allocation_l j
  | d_l i, d_l j
  | d_s i, d_s j => String.eqb i j
  | _, _ => false
  end.

(** The assignment that is zero but at the listed variables. *)
Definition assign (l : list (var * Q)) : assignment :=
  fun x =>
    match find (fun e => var_eqb (fst e) x) l with
    | Some e => snd e
    | None => 0
    end.

Definition set_values (v : assignment) : values := fun x => Some (v x).

(** A square root rounded down to six decimals. *)
Definition sqrt6 (q : Q) : Q :=
  Qmake (Z.sqrt (Qnum q * 1000000000000 / Zpos (Qden q))) 1000000.

Close Scope string_scope.

(* ================================================================== *)
(** ** The rows a successful build produces *)

(** The rows of the indexed constraint families, as functions of the index,
    and the single cardinality constraint. *)
Definition long_bound_row (d : model_data) (i : string) : string * relation :=
  (i, Le (V (allocation_l i))
         (Mul (V (d_l i)) (Num (dict_value (upper_asset_bounds d) i)))).

Definition short_bound_row (d : model_data) (i : string) : string * relation :=
  (i, Ge (Neg (V (allocation_s i)))
         (Mul (V (d_s i)) (Num (dict_value (lower_asset_bounds d) i)))).

Definition exclusive_row (i : string) : string * relation :=
  (i, Le (Add (V (d_l i)) (V (d_s i))) (Num 1)).

Definition cardinality_row (d : model_data) : relation :=
  Le (py_sum (map (fun i => py_add (V (d_l i)) (V (d_s i))) (investments d)))
     (Num card).

Definition net_long_row (d : model_data) (i : string) : string * relation :=
  (i, Le (total_long d) (Num net_upper_long_bound)).

Definition net_short_upper_row (d : model_data) (i : string)
  : string * relation :=
  (i, Le (total_short d) (Num net_upper_short_bound)).

Definition net_short_lower_row (d : model_data) (i : string)
  : string * relation :=
  (i, Ge (total_short d) (Num net_lower_short_bound)).

(** The inputs the build accepts: at least one asset, and a covariance entry
    for every ordered pair of tickers. *)
Definition valid_tables (t : tables) : Prop :=
  array_df t <> []
  /\ forall i j, In i (investment_strs t) -> In j (investment_strs t) ->
                 cov_df t i j <> None.

(** The per-asset short bound in the capped form, [s_i <= d_s_i * ub]. *)
Definition short_cap_form (i : string) (ub : Q) : relation :=
  Le (V (allocation_s i)) (Mul (V (d_s i)) (Num ub)).

(** [cov_df.loc[i, j]], 0 where the table has no entry; used to state what a
    successful lookup returned. *)
Definition cov_value (t : tables) (ij : string * string) : Q :=
  match cov_df t (fst ij) (snd ij) with
  | Some c => c
  | None => 0
  end.

(** The objective as the specification words it: expected net return minus
    [rho_] times the variance of the net positions, the double sum ranging
    over all ordered pairs of assets. *)
Definition objective_spec (r : string -> Q) (cov : string -> string -> Q)
  (rho_ : Q) (assets : list string) (v : assignment) : Q :=
  num_sum
    (map (fun i => r i * (v (allocation_l i) - v (allocation_s i))) assets)
  - rho_
    * num_sum
        (map (fun i =>
                num_sum
                  (map (fun j =>
                          cov i j
                          * (v (allocation_l i) - v (allocation_s i))
                          * (v (allocation_l j) - v (allocation_s j)))
                       assets))
             assets).

(** The report the derivation returns when the variables hold the numbers
    of the assignment [v]. *)
Definition report_of (sqrt_pos : Q -> Q) (m : model) (v : assignment)
  : report :=
  let idx := investments (data m) in
  let net i := v (allocation_l i) - v (allocation_s i) in
  let rs_ := num_sum (map (fun i => dict_value (returns (data m)) i * net i)
                          idx) in
  let covs_ := num_sum (map (fun e => snd e * net (fst (fst e))
                                      * net (snd (fst e)))
                            (covariance_mat (data m))) in
  {| rs := rs_;
     covs := covs_;
     cards := num_sum (map (fun i => v (d_l i) + v (d_s i)) idx);
     tlong := num_sum (map (fun i => v (d_l i) * v (allocation_l i)) idx);
     clong := num_sum (map (fun i => v (d_l i)) idx);
     tshrt := num_sum (map (fun i => v (d_s i) * v (allocation_s i)) idx);
     cshrt := num_sum (map (fun i => v (d_s i)) idx);
     ann_sharpe := np_div (np_mul (np_sqrt sqrt_pos 252) rs_)
                          (np_sqrt sqrt_pos covs_);
     daily_vol := np_sqrt sqrt_pos covs_;
     allocations := map (fun i => (i, v (allocation_l i),
                                   v (allocation_s i))) idx |}.

(* ================================================================== *)
(** ** Positions, variables of an expression, further sample inputs *)

(** Whether an asset carries a long or a short allocation. *)
Definition holds_position (v : assignment) (i : string) : bool :=
  negb (Qeq_bool (v (allocation_l i)) 0)
  || negb (Qeq_bool (v (allocation_s i)) 0).

(** The number of assets that carry a position. *)
Definition position_count (v : assignment) (idx : list string) : nat :=
  List.length (filter (holds_position v) idx).

(** The variables an expression mentions. *)
Fixpoint vars_of (e : expr) : list var :=
  match e with
  | Num _ => []
  | V x => [x]
  | Neg a => vars_of a
  | Add a b | Sub a b | Mul a b => vars_of a ++ vars_of b
  end.

Definition vars_of_relation (r : relation) : list var :=
  match r with
  | Le a b | Ge a b => vars_of a ++ vars_of b
  end.

(** The conditions the built model puts on an assignment, written out: per
    asset the two domains, the two bound rows and the exclusivity row, then
    the cardinality limit and the three aggregate bounds in force. *)
Definition model_conditions (d : model_data) (v : assignment) : Prop :=
  (forall i, In i (investments d) ->
     0 <= v (allocation_s i)
     /\ 0 <= v (allocation_l i)
     /\ (v (d_l i) == 0 \/ v (d_l i) == 1)
     /\ (v (d_s i) == 0 \/ v (d_s i) == 1)
     /\ v (allocation_l i) <= v (d_l i) * dict_value (upper_asset_bounds d) i
     /\ v (d_s i) * dict_value (lower_asset_bounds d) i <= - v (allocation_s i)
     /\ v (d_l i) + v (d_s i) <= 1)
  /\ num_sum (map (fun i => v (d_l i) + v (d_s i)) (investments d)) <= card
  /\ num_sum (map (fun i => v (allocation_l i)) (investments d))
     <= net_upper_long_bound
  /\ num_sum (map (fun i => v (allocation_s i)) (investments d))
     <= net_upper_short_bound
  /\ net_lower_short_bound
     <= num_sum (map (fun i => v (allocation_s i)) (investments d)).

(** The assignment that shorts the asset [i] at 0.5 and holds nothing else. *)
Definition short_only (i : string) : assignment :=
  fun x =>
    match x with
    | allocation_s j => if String.eqb j i then 1 # 2 else 0
    | d_s j => if String.eqb j i then 1 else 0
    | _ => 0
    end.

Open Scope string_scope.

(** One asset whose covariance entry is negative. *)
Definition one_asset_negative_cov : tables :=
  {| array_df := [mk_row "A" (1 # 1000) 1 (- (1))];
     cov_df := cov_table [("A", "A", - (1 # 10000))] |}.

(** Two assets and a covariance table that lacks the pair (B, A). *)
Definition two_assets_missing_cov : tables :=
  {| array_df := [mk_row "A" (1 # 1000) 1 (- (1));
                  mk_row "B" (2 # 1000) 1 (- (1))];
     cov_df := cov_table [("A", "A", 1 # 10000); ("A", "B", 0);
                          ("B", "B", 2 # 10000)] |}.

(** The ticker A listed twice, with different figures. *)
Definition repeated_ticker : tables :=
  {| array_df := [mk_row "A" (1 # 1000) (1 # 10) (1 # 10);
                  mk_row "A" (3 # 1000) 1 (- (1))];
     cov_df := cov_table [("A", "A", 1 # 10000)] |}.

(** For [two_assets]: A long at 0.05, B short at 0.5. *)
Definition long_A_short_B : assignment :=
  assign [(allocation_l "A", 5 # 100); (d_l "A", 1);
          (allocation_s "B", 1 # 2); (d_s "B", 1)].

Close Scope string_scope.

(* ================================================================== *)
(** * Properties *)

(** ** The exception monad and comprehensions *)

Lemma bind_ok {A B : Type} (c : result A) (k : A -> result B) (b : B) :
  bind c k = Ok b -> exists a, c = Ok a /\ k a = Ok b.
Proof.
  destruct c as [a | e]; simpl; intro H.
  - exists a. split; [reflexivity | exact H].
  - discriminate H.
Qed.

(** Peel the binds of a computation known to have returned. *)
Ltac unbind H :=
  repeat
    (let a := fresh "a" in
     let Ha := fresh "Ha" in
     apply bind_ok in H; destruct H as (a & Ha & H)).

Ltac ok_inj H := injection H as H; subst.

Lemma Ok_inj {A : Type} (a b : A) : Ok a = Ok b -> a = b.
Proof. intro H. injection H as H. exact H. Qed.

Lemma for_each_map_ok {A B : Type} (f : A -> result B) (g : A -> B)
  (l : list A) :
  (forall x, In x l -> f x = Ok (g x)) -> for_each f l = Ok (map g l).
Proof.
  induction l as [| x t IH]; simpl; intro H.
  - reflexivity.
  - rewrite (H x) by (left; reflexivity). simpl.
    rewrite IH by (intros y Hy; apply H; right; exact Hy).
    reflexivity.
Qed.

Lemma for_each_ok_map {A B : Type} (f : A -> result B) (g : A -> B)
  (l : list A) :
  (forall x y, f x = Ok y -> y = g x) ->
  forall ys, for_each f l = Ok ys -> ys = map g l.
Proof.
  intro Hg. induction l as [| x t IH]; simpl; intros ys H.
  - ok_inj H. reflexivity.
  - unbind H. ok_inj H. f_equal; [apply Hg; assumption | apply IH; assumption].
Qed.

Lemma for_each_ok_each {A B : Type} (f : A -> result B) (l : list A) :
  forall ys, for_each f l = Ok ys ->
  forall x, In x l -> exists y, f x = Ok y /\ In y ys.
Proof.
  induction l as [| x t IH]; simpl; intros ys H z Hz.
  - contradiction.
  - unbind H. ok_inj H. destruct Hz as [-> | Hz].
    + exists a. split; [assumption | left; reflexivity].
    + destruct (IH _ Ha0 z Hz) as (y & Hy & Hin).
      exists y. split; [assumption | right; assumption].
Qed.

Lemma for_each_total {A B : Type} (f : A -> result B) (l : list A) :
  (forall x, In x l -> exists y, f x = Ok y) ->
  exists ys, for_each f l = Ok ys.
Proof.
  induction l as [| x t IH]; simpl; intro H.
  - exists []. reflexivity.
  - destruct (H x (or_introl eq_refl)) as (y & Hy).
    destruct IH as (ys & Hys); [intros z Hz; apply H; right; exact Hz |].
    exists (y :: ys). rewrite Hy, Hys. reflexivity.
Qed.

(** ** Sums *)

Lemma fold_plus_acc (l : list Q) :
  forall a, fold_left Qplus l a == a + fold_left Qplus l 0.
Proof.
  induction l as [| x t IH]; simpl; intro a.
  - ring.
  - rewrite (IH (a + x)), (IH (0 + x)). ring.
Qed.

Lemma num_sum_cons (x : Q) (l : list Q) : num_sum (x :: l) == x + num_sum l.
Proof.
  unfold num_sum. simpl. rewrite fold_plus_acc. ring.
Qed.

Lemma num_sum_app (l l' : list Q) :
  num_sum (l ++ l') == num_sum l + num_sum l'.
Proof.
  induction l as [| x t IH]; simpl.
  - unfold num_sum at 2. simpl. ring.
  - rewrite !num_sum_cons, IH. ring.
Qed.

Lemma num_sum_ext {A : Type} (f g : A -> Q) (l : list A) :
  (forall x, In x l -> f x == g x) ->
  num_sum (map f l) == num_sum (map g l).
Proof.
  induction l as [| x t IH]; simpl; intro H.
  - reflexivity.
  - rewrite !num_sum_cons, IH, (H x).
    + reflexivity.
    + left; reflexivity.
    + intros y Hy. apply H. right. exact Hy.
Qed.

Lemma num_sum_zero {A : Type} (f : A -> Q) (l : list A) :
  (forall x, In x l -> f x == 0) -> num_sum (map f l) == 0.
Proof.
  induction l as [| x t IH]; simpl; intro H.
  - reflexivity.
  - rewrite num_sum_cons, IH, (H x).
    + ring.
    + left; reflexivity.
    + intros y Hy. apply H. right. exact Hy.
Qed.

(** A sum over all ordered pairs is the nested sum. *)
Lemma num_sum_list_prod {A B : Type} (f : A * B -> Q) (l : list A)
  (l' : list B) :
  num_sum (map f (list_prod l l'))
  == num_sum (map (fun i => num_sum (map (fun j => f (i, j)) l')) l).
Proof.
  induction l as [| x t IH]; simpl.
  - reflexivity.
  - rewrite map_app, num_sum_app, num_sum_cons, IH, map_map. reflexivity.
Qed.

(** ** Expressions *)

Lemma eval_py_neg (v : assignment) (a : expr) :
  eval v (py_neg a) = - eval v a.
Proof. destruct a; reflexivity. Qed.

Lemma eval_py_add (v : assignment) (a b : expr) :
  eval v (py_add a b) = eval v a + eval v b.
Proof. destruct a, b; reflexivity. Qed.

Lemma eval_py_sub (v : assignment) (a b : expr) :
  eval v (py_sub a b) = eval v a - eval v b.
Proof. destruct a, b; reflexivity. Qed.

Lemma eval_py_mul (v : assignment) (a b : expr) :
  eval v (py_mul a b) = eval v a * eval v b.
Proof. destruct a, b; reflexivity. Qed.

Lemma eval_fold_py_add (v : assignment) (l : list expr) :
  forall acc,
    eval v (fold_left py_add l acc)
    = fold_left Qplus (map (eval v) l) (eval v acc).
Proof.
  induction l as [| x t IH]; simpl; intro acc.
  - reflexivity.
  - rewrite IH, eval_py_add. reflexivity.
Qed.

Lemma eval_py_sum (v : assignment) (l : list expr) :
  eval v (py_sum l) = num_sum (map (eval v) l).
Proof. unfold py_sum, num_sum. apply eval_fold_py_add. Qed.

Lemma eval_total_long (v : assignment) (m : model_data) :
  eval v (total_long m)
  = num_sum (map (fun i => v (allocation_l i)) (investments m)).
Proof. unfold total_long. rewrite eval_py_sum, map_map. reflexivity. Qed.

Lemma eval_total_short (v : assignment) (m : model_data) :
  eval v (total_short m)
  = num_sum (map (fun i => v (allocation_s i)) (investments m)).
Proof. unfold total_short. rewrite eval_py_sum, map_map. reflexivity. Qed.

(** A sum of at least one variable is an expression, not a plain number. *)
Lemma py_add_not_num (a b : expr) :
  is_num b = false -> is_num (py_add a b) = false.
Proof. destruct a, b; simpl; intro H; try reflexivity; discriminate H. Qed.

Lemma fold_py_add_not_num (l : list expr) :
  forall acc, is_num acc = false -> is_num (fold_left py_add l acc) = false.
Proof.
  induction l as [| x t IH]; simpl; intros acc H.
  - exact H.
  - apply IH. destruct acc, x; simpl in *; try reflexivity; discriminate H.
Qed.

Lemma py_sum_not_num {A : Type} (f : A -> expr) (l : list A) :
  (forall x, is_num (f x) = false) -> l <> [] ->
  is_num (py_sum (map f l)) = false.
Proof.
  intros Hf Hl. destruct l as [| x t]; [contradiction |].
  unfold py_sum.
  change (is_num (fold_left py_add (map f t) (py_add (Num 0) (f x))) = false).
  apply fold_py_add_not_num, py_add_not_num, Hf.
Qed.

Lemma py_le_rel (a b : expr) : is_num a = false -> py_le a b = PyRel (Le a b).
Proof. destruct a; simpl; intro H; try reflexivity; discriminate H. Qed.

Lemma py_ge_rel (a b : expr) : is_num a = false -> py_ge a b = PyRel (Ge a b).
Proof. destruct a; simpl; intro H; try reflexivity; discriminate H. Qed.

(** ** The shape of a built model *)

Lemma param_get_ok (p : dict) (i : string) (q : Q) :
  param_get p i = Ok q -> dict_get p i = Some q /\ q = dict_value p i.
Proof.
  unfold param_get, dict_value. destruct (dict_get p i) as [q' |]; intro H.
  - ok_inj H. split; reflexivity.
  - discriminate H.
Qed.

Lemma indexed_rows (idx : list string) (rule : string -> result py_value)
  (g : string -> string * relation) (rows : list (string * relation)) :
  (forall i r, In i idx -> Constraint (rule i) = Ok r -> (i, r) = g i) ->
  Constraint_indexed idx rule = Ok rows -> rows = map g idx.
Proof.
  unfold Constraint_indexed. revert rows.
  induction idx as [| x t IH]; simpl; intros rows Hg H.
  - ok_inj H. reflexivity.
  - unbind H. ok_inj H. unbind Ha. ok_inj Ha. f_equal.
    + apply Hg; [left; reflexivity | assumption].
    + apply IH; [| assumption].
      intros i r Hi. apply Hg. right. exact Hi.
Qed.

Lemma card_rule_rel (d : model_data) (r : relation) :
  Constraint (card_rule d) = Ok r ->
  investments d <> [] /\ r = cardinality_row d.
Proof.
  unfold Constraint, card_rule. simpl. intro H.
  destruct (investments d) as [| x t] eqn:E.
  - simpl in H. discriminate H.
  - split; [discriminate |].
    rewrite py_le_rel in H.
    + simpl in H. ok_inj H. unfold cardinality_row. rewrite E. reflexivity.
    + apply (py_sum_not_num (fun i => py_add (V (d_l i)) (V (d_s i)))).
      * intro i. reflexivity.
      * discriminate.
Qed.

Lemma total_long_not_num (d : model_data) :
  investments d <> [] -> is_num (total_long d) = false.
Proof.
  intro H. apply (py_sum_not_num (fun i => V (allocation_l i))); auto.
Qed.

Lemma total_short_not_num (d : model_data) :
  investments d <> [] -> is_num (total_short d) = false.
Proof.
  intro H. apply (py_sum_not_num (fun i => V (allocation_s i))); auto.
Qed.

Lemma lflag_row (d : model_data) (i : string) (r : relation) :
  Constraint (lflag_rule d i) = Ok r -> (i, r) = long_bound_row d i.
Proof.
  unfold Constraint, lflag_rule. intro H.
  apply bind_ok in H as (v & Hv & H).
  apply bind_ok in Hv as (q & Hq & Hv).
  apply param_get_ok in Hq as (_ & ->).
  ok_inj Hv. simpl in H. ok_inj H. reflexivity.
Qed.

Lemma sflag_row (d : model_data) (i : string) (r : relation) :
  Constraint (sflag_rule d i) = Ok r -> (i, r) = short_bound_row d i.
Proof.
  unfold Constraint, sflag_rule. intro H.
  apply bind_ok in H as (v & Hv & H).
  apply bind_ok in Hv as (q & Hq & Hv).
  apply param_get_ok in Hq as (_ & ->).
  ok_inj Hv. simpl in H. ok_inj H. reflexivity.
Qed.

Lemma binary_row (d : model_data) (i : string) (r : relation) :
  Constraint (binary_rule d i) = Ok r -> (i, r) = exclusive_row i.
Proof.
  unfold Constraint, binary_rule. simpl. intro H. ok_inj H. reflexivity.
Qed.

Lemma netlong_ub_row (d : model_data) (i : string) (r : relation) :
  investments d <> [] ->
  Constraint (netlong_rule_ub d i) = Ok r -> (i, r) = net_long_row d i.
Proof.
  intros Hne H. unfold Constraint, netlong_rule_ub in H. simpl in H.
  rewrite py_le_rel in H by (apply total_long_not_num; exact Hne).
  simpl in H. ok_inj H. reflexivity.
Qed.

Lemma netlong_lb_row (d : model_data) (i : string) (r : relation) :
  investments d <> [] ->
  Constraint (netlong_rule_lb d i) = Ok r -> (i, r) = net_long_row d i.
Proof.
  intros Hne H. unfold Constraint, netlong_rule_lb in H. simpl in H.
  rewrite py_le_rel in H by (apply total_long_not_num; exact Hne).
  simpl in H. ok_inj H. reflexivity.
Qed.

Lemma netshrt_ub_row (d : model_data) (i : string) (r : relation) :
  investments d <> [] ->
  Constraint (netshrt_rule_ub d i) = Ok r -> (i, r) = net_short_upper_row d i.
Proof.
  intros Hne H. unfold Constraint, netshrt_rule_ub in H. simpl in H.
  rewrite py_le_rel in H by (apply total_short_not_num; exact Hne).
  simpl in H. ok_inj H. reflexivity.
Qed.

Lemma netshrt_lb_row (d : model_data) (i : string) (r : relation) :
  investments d <> [] ->
  Constraint (netshrt_rule_lb d i) = Ok r -> (i, r) = net_short_lower_row d i.
Proof.
  intros Hne H. unfold Constraint, netshrt_rule_lb in H. simpl in H.
  rewrite py_ge_rel in H by (apply total_short_not_num; exact Hne).
  simpl in H. ok_inj H. reflexivity.
Qed.

(** What a successful [construct] returns, component by component. *)
Lemma construct_shape (t : tables) (m : model) :
  construct t = Ok m ->
  declare_data t = Ok (data m)
  /\ investments (data m) <> []
  /\ variables m
     = Var allocation_s (investments (data m)) NonNegativeReals
       ++ Var allocation_l (investments (data m)) NonNegativeReals
       ++ Var d_l (investments (data m)) Boolean
       ++ Var d_s (investments (data m)) Boolean
  /\ Objective (obj_rule (data m)) maximize = Ok (OBJ m)
  /\ Constraint_indexed (investments (data m)) (sflag_rule (data m))
     = Ok (cons_shrt_invest_lbs m)
  /\ cons_long_invest_ubs m
     = map (long_bound_row (data m)) (investments (data m))
  /\ cons_shrt_invest_lbs m
     = map (short_bound_row (data m)) (investments (data m))
  /\ cons_cardinality_ubs m = cardinality_row (data m)
  /\ cons_long_shrt_none m = map exclusive_row (investments (data m))
  /\ net_long_upper m = map (net_long_row (data m)) (investments (data m))
  /\ net_long_lower m = map (net_long_row (data m)) (investments (data m))
  /\ net_short_upper m
     = map (net_short_upper_row (data m)) (investments (data m))
  /\ net_short_lower m
     = map (net_short_lower_row (data m)) (investments (data m)).
Proof.
  intro H. unfold construct in H. unbind H. ok_inj H. simpl.
  destruct (card_rule_rel _ _ Ha3) as (Hne & ->).
  repeat split; try assumption;
    (eapply indexed_rows; [| eassumption]; intros i r _ Hr);
    eauto using lflag_row, sflag_row, binary_row, netlong_ub_row,
      netlong_lb_row, netshrt_ub_row, netshrt_lb_row.
Qed.

(* ================================================================== *)
(** ** Feasible assignments *)

Lemma holdsb_spec (v : assignment) (r : relation) :
  holdsb v r = true <-> holds v r.
Proof. destruct r; simpl; apply Qle_bool_iff. Qed.

Lemma in_domainb_spec (dom : domain) (q : Q) :
  in_domainb dom q = true <-> in_domain dom q.
Proof.
  destruct dom; simpl.
  - apply Qle_bool_iff.
  - rewrite orb_true_iff, !Qeq_bool_iff. reflexivity.
Qed.

Lemma feasibleb_spec (m : model) (v : assignment) :
  feasibleb m v = true <-> feasible m v.
Proof.
  unfold feasibleb, feasible.
  rewrite andb_true_iff, !forallb_forall, !Forall_forall.
  split; intros (Hd & Hc); split; intros x Hx.
  - apply in_domainb_spec, Hd, Hx.
  - apply holdsb_spec, Hc, Hx.
  - apply in_domainb_spec, Hd, Hx.
  - apply holdsb_spec, Hc, Hx.
Qed.

Lemma in_Var (mk : string -> var) (idx : list string) (dom : domain)
  (i : string) :
  In i idx -> In (mk i, dom) (Var mk idx dom).
Proof. intro H. unfold Var. apply (in_map (fun k => (mk k, dom))), H. Qed.

(** What feasibility says at one asset of a built model. *)
Lemma feasible_at (t : tables) (m : model) (v : assignment) (i : string) :
  construct t = Ok m -> feasible m v -> In i (investments (data m)) ->
  0 <= v (allocation_s i)
  /\ 0 <= v (allocation_l i)
  /\ (v (d_l i) == 0 \/ v (d_l i) == 1)
  /\ (v (d_s i) == 0 \/ v (d_s i) == 1)
  /\ v (allocation_l i)
     <= v (d_l i) * dict_value (upper_asset_bounds (data m)) i
  /\ v (d_s i) * dict_value (lower_asset_bounds (data m)) i
     <= - v (allocation_s i)
  /\ v (d_l i) + v (d_s i) <= 1.
Proof.
  intros Hc (Hd & Hr) Hi.
  destruct (construct_shape t m Hc)
    as (_ & _ & Hv & _ & _ & H1 & H2 & _ & H4 & _).
  rewrite Forall_forall in Hd, Hr.
  assert (Dom : forall mk dom,
             In (mk, dom) (variables m) -> in_domain dom (v mk)).
  { intros mk dom Hin. apply (Hd (mk, dom) Hin). }
  assert (Row : forall r, In r (constraints m) -> holds v r) by exact Hr.
  rewrite Hv in Dom. unfold constraints in Row. rewrite H1, H2, H4 in Row.
  assert (Ks : In (allocation_s i, NonNegativeReals)
                 (Var allocation_s (investments (data m)) NonNegativeReals))
    by (apply in_Var, Hi).
  assert (Kl : In (allocation_l i, NonNegativeReals)
                 (Var allocation_l (investments (data m)) NonNegativeReals))
    by (apply in_Var, Hi).
  assert (Kdl : In (d_l i, Boolean) (Var d_l (investments (data m)) Boolean))
    by (apply in_Var, Hi).
  assert (Kds : In (d_s i, Boolean) (Var d_s (investments (data m)) Boolean))
    by (apply in_Var, Hi).
  assert (K1 : In (snd (long_bound_row (data m) i))
                 (map snd (map (long_bound_row (data m))
                               (investments (data m)))))
    by (apply in_map, in_map, Hi).
  assert (K2 : In (snd (short_bound_row (data m) i))
                 (map snd (map (short_bound_row (data m))
                               (investments (data m)))))
    by (apply in_map, in_map, Hi).
  assert (K4 : In (snd (exclusive_row i))
                 (map snd (map exclusive_row (investments (data m)))))
    by (apply in_map, in_map, Hi).
  repeat split.
  - apply (Dom (allocation_s i) NonNegativeReals). rewrite !in_app_iff. tauto.
  - apply (Dom (allocation_l i) NonNegativeReals). rewrite !in_app_iff. tauto.
  - apply (Dom (d_l i) Boolean). rewrite !in_app_iff. tauto.
  - apply (Dom (d_s i) Boolean). rewrite !in_app_iff. tauto.
  - apply (Row (snd (long_bound_row (data m) i))). rewrite !in_app_iff. tauto.
  - apply (Row (snd (short_bound_row (data m) i))). rewrite !in_app_iff. tauto.
  - apply (Row (snd (exclusive_row i))). rewrite !in_app_iff. tauto.
Qed.

(** What feasibility says of the aggregates of a built model. *)
Lemma feasible_totals (t : tables) (m : model) (v : assignment) :
  construct t = Ok m -> feasible m v ->
  eval v (total_long (data m)) <= net_upper_long_bound
  /\ eval v (total_short (data m)) <= net_upper_short_bound
  /\ net_lower_short_bound <= eval v (total_short (data m)).
Proof.
  intros Hc (_ & Hr).
  destruct (construct_shape t m Hc)
    as (_ & Hne & _ & _ & _ & _ & _ & _ & _ & H5 & _ & H7 & H8).
  rewrite Forall_forall in Hr. unfold constraints in Hr.
  rewrite H5, H7, H8 in Hr.
  destruct (investments (data m)) as [| i idx]; [contradiction |].
  repeat split.
  - apply (Hr (snd (net_long_row (data m) i))).
    rewrite !in_app_iff. simpl. tauto.
  - apply (Hr (snd (net_short_upper_row (data m) i))).
    rewrite !in_app_iff. simpl. tauto.
  - apply (Hr (snd (net_short_lower_row (data m) i))).
    rewrite !in_app_iff. simpl. tauto.
Qed.

(* ================================================================== *)
(** ** Parameters of a built model *)

Lemma cov_entry (t : tables) (ij : string * string)
  (e : string * string * Q) :
  (c <- cov_init t (fst ij) (snd ij) ;; Ok (ij, c)) = Ok e ->
  e = (ij, cov_value t ij).
Proof.
  unfold cov_init, cov_value.
  destruct (cov_df t (fst ij) (snd ij)) as [c |]; simpl; intro H.
  - ok_inj H. reflexivity.
  - discriminate H.
Qed.

Lemma declare_data_fields (t : tables) (d : model_data) :
  declare_data t = Ok d ->
  investments d = Set_initialize (investment_strs t)
  /\ returns d = dict_zip (investment_strs t) (return_floats t)
  /\ upper_asset_bounds d = dict_zip (investment_strs t) (ubounds t)
  /\ lower_asset_bounds d = dict_zip (investment_strs t) (lbounds t)
  /\ covariance_mat d
     = map (fun ij => (ij, cov_value t ij))
           (list_prod (investments d) (investments d)).
Proof.
  unfold declare_data. intro H.
  apply bind_ok in H as (cov & Hcov & H). ok_inj H. simpl.
  repeat split.
  apply (for_each_ok_map _ _ _ (cov_entry t) _ Hcov).
Qed.

Lemma dict_get_acc (d : dict) (k : string) (q : Q) :
  forall acc,
    fold_left
      (fun acc kv => if String.eqb (fst kv) k then Some (snd kv) else acc)
      d acc = Some q ->
    acc = Some q \/ In (k, q) d.
Proof.
  induction d as [| [k' q'] d IH]; simpl; intros acc H.
  - left. exact H.
  - apply IH in H. destruct H as [H | H]; [| right; right; exact H].
    destruct (String.eqb k' k) eqn:E.
    + apply String.eqb_eq in E. subst k'. ok_inj H. right. left. reflexivity.
    + left. exact H.
Qed.

Lemma dict_get_in (d : dict) (k : string) (q : Q) :
  dict_get d k = Some q -> In (k, q) d.
Proof.
  intro H. apply dict_get_acc in H. destruct H as [H | H];
    [discriminate H | exact H].
Qed.

Lemma dict_value_get (d : dict) (k : string) (q : Q) :
  dict_get d k = Some q -> dict_value d k = q.
Proof. unfold dict_value. intros ->. reflexivity. Qed.

(** A value of the lower-bound dictionary is the [lbounds] entry of a row. *)
Lemma lower_bound_from_row (t : tables) (k : string) (q : Q) :
  In (k, q) (dict_zip (investment_strs t) (lbounds t)) ->
  exists r, In r (array_df t) /\ col_lbounds r = q.
Proof.
  unfold dict_zip, lbounds. intro H.
  apply in_combine_r in H. apply in_map_iff in H.
  destruct H as (r & Hr & Hin). exists r. split; assumption.
Qed.

(** In a built model every asset has a lower bound. *)
Lemma lower_bound_defined (t : tables) (m : model) (i : string) :
  construct t = Ok m -> In i (investments (data m)) ->
  exists lb, dict_get (lower_asset_bounds (data m)) i = Some lb.
Proof.
  intros Hc Hi.
  destruct (construct_shape t m Hc) as (_ & _ & _ & _ & Hs & _).
  unfold Constraint_indexed in Hs.
  destruct (for_each_ok_each _ _ _ Hs i Hi) as (y & Hy & _).
  apply bind_ok in Hy as (r & Hr & _).
  unfold Constraint, sflag_rule in Hr.
  apply bind_ok in Hr as (pv & Hpv & _).
  apply bind_ok in Hpv as (lb & Hlb & _).
  exists lb. apply param_get_ok in Hlb. apply Hlb.
Qed.

(* ================================================================== *)
(** ** The per-asset short bound *)

(** C1, as the code has it: for every asset [i] of a built model the instance
    contains the constraint [- s_i >= d_s_i * lb_i], where [lb_i] is the
    asset's entry of the [lbounds] column taken as it is; this constraint has
    the solutions of [s_i <= d_s_i * (- lb_i)], so it caps the short
    allocation by the ceiling [- lb_i] (a ceiling only for a signed,
    non-positive lower bound). *)
Theorem C1_short_bound_as_built (t : tables) (m : model) (i : string) :
  construct t = Ok m -> In i (investments (data m)) ->
  exists lb,
    dict_get (dict_zip (investment_strs t) (lbounds t)) i = Some lb
    /\ In (i, Ge (Neg (V (allocation_s i))) (Mul (V (d_s i)) (Num lb)))
          (cons_shrt_invest_lbs m)
    /\ forall v,
         holds v (Ge (Neg (V (allocation_s i))) (Mul (V (d_s i)) (Num lb)))
         <-> holds v (short_cap_form i (- lb)).
Proof.
  intros Hc Hi.
  destruct (lower_bound_defined t m i Hc Hi) as (lb & Hlb).
  destruct (construct_shape t m Hc)
    as (Hd & _ & _ & _ & _ & _ & H2 & _).
  destruct (declare_data_fields t _ Hd) as (_ & _ & _ & Hl & _).
  exists lb. split; [rewrite <- Hl; exact Hlb |]. split.
  - rewrite H2. rewrite <- (dict_value_get _ _ _ Hlb).
    apply (in_map (short_bound_row (data m))), Hi.
  - intro v. simpl. split; intro H; lra.
Qed.

(** The short-bound theorem at the one-asset input with a signed bound. *)
Lemma C1_short_bound_as_built_witness :
  exists m lb,
    construct one_asset_signed = Ok m
    /\ In (("A")%string,
           Ge (Neg (V (allocation_s "A"))) (Mul (V (d_s "A")) (Num lb)))
          (cons_shrt_invest_lbs m).
Proof.
  eexists. 
  destruct (C1_short_bound_as_built one_asset_signed _ "A"%string eq_refl)
    as (lb & _ & Hin & _).
  - left. reflexivity.
  - exists lb. split; [reflexivity | exact Hin].
Defined.

(** C1, as stated, fails: with the short bound 0.1 the row built for the asset
    is not the capped form [s <= d_s * 0.1]; the assignment [s = 0.05],
    [d_s = 1] satisfies the capped form and violates the row. *)
Lemma C1_not_cap_form :
  exists m r,
    construct one_asset = Ok m
    /\ cons_shrt_invest_lbs m = [("A"%string, r)]
    /\ holds (assign [(allocation_s "A", 1 # 20); (d_s "A", 1)])
             (short_cap_form "A" (1 # 10))
    /\ ~ holds (assign [(allocation_s "A", 1 # 20); (d_s "A", 1)]) r.
Proof.
  eexists. eexists. split; [vm_compute; reflexivity |].
  split; [vm_compute; reflexivity |]. split.
  - apply holdsb_spec. vm_compute. reflexivity.
  - intro H. apply holdsb_spec in H. vm_compute in H. discriminate H.
Qed.

(* ================================================================== *)
(** ** Short positions under a non-negative lower bound *)

(** The short-bound row and the domains leave no room for a short position
    under a non-negative lower bound. *)
Lemma short_forced_zero (t : tables) (m : model) (v : assignment)
  (i : string) (lb : Q) :
  construct t = Ok m -> feasible m v -> In i (investments (data m)) ->
  dict_get (lower_asset_bounds (data m)) i = Some lb -> 0 <= lb ->
  v (allocation_s i) == 0 /\ (0 < lb -> v (d_s i) == 0).
Proof.
  intros Hc Hf Hi Hlb Hpos.
  destruct (feasible_at t m v i Hc Hf Hi)
    as (Hs & _ & _ & Hds & _ & Hrow & _).
  rewrite (dict_value_get _ _ _ Hlb) in Hrow.
  destruct Hds as [Hd | Hd]; rewrite Hd in Hrow.
  - split; [lra | intros _; exact Hd].
  - split; [lra | intro Hlt; lra].
Qed.

(** C3: in a built model, for every asset [i] whose lower bound is not
    negative, every feasible assignment has [s_i = 0], and [d_s_i = 0] when the
    bound is positive. *)
Theorem C3_no_short_position (t : tables) (m : model) (v : assignment)
  (i : string) (lb : Q) :
  construct t = Ok m -> feasible m v -> In i (investments (data m)) ->
  dict_get (lower_asset_bounds (data m)) i = Some lb -> 0 <= lb ->
  v (allocation_s i) == 0 /\ (0 < lb -> v (d_s i) == 0).
Proof. exact (short_forced_zero t m v i lb). Qed.

(** The theorem at two assets, the first with lower bound 0.1: the assignment
    that shorts only the second asset is feasible. *)
Lemma C3_no_short_position_witness :
  exists m,
    construct two_assets = Ok m
    /\ feasible m (assign [(allocation_s "B", 1 # 2); (d_s "B", 1)])
    /\ assign [(allocation_s "B", 1 # 2); (d_s "B", 1)] (allocation_s "A") == 0.
Proof.
  eexists. split; [vm_compute; reflexivity |].
  match goal with
  | |- feasible ?M ?v /\ _ =>
      assert (Hf : feasible M v)
        by (apply feasibleb_spec; vm_compute; reflexivity)
  end.
  split; [exact Hf |].
  refine (proj1 (C3_no_short_position two_assets _ _ "A"%string (1 # 10)
                   eq_refl Hf _ _ _)).
  - left. reflexivity.
  - reflexivity.
  - discriminate.
Defined.

(** C4: with [net_lower_short_bound = 0.5], when no entry of the [lbounds]
    column is negative, no assignment is feasible for the built model. *)
Theorem C4_infeasible (t : tables) (m : model) :
  construct t = Ok m ->
  (forall r, In r (array_df t) -> 0 <= col_lbounds r) ->
  forall v, ~ feasible m v.
Proof.
  intros Hc Hnn v Hf.
  destruct (construct_shape t m Hc) as (Hd & _).
  destruct (declare_data_fields t _ Hd) as (_ & _ & _ & Hl & _).
  destruct (feasible_totals t m v Hc Hf) as (_ & _ & Hlow).
  rewrite eval_total_short in Hlow.
  rewrite num_sum_zero in Hlow.
  - unfold net_lower_short_bound in Hlow. lra.
  - intros i Hi.
    destruct (lower_bound_defined t m i Hc Hi) as (lb & Hlb).
    apply (short_forced_zero t m v i lb Hc Hf Hi Hlb).
    pose proof Hlb as Hin. rewrite Hl in Hin. apply dict_get_in in Hin.
    destruct (lower_bound_from_row t i lb Hin) as (r & Hr & <-).
    apply Hnn, Hr.
Qed.

(** The theorem at the one-asset input whose lower bound is 0.1. *)
Lemma C4_infeasible_witness :
  exists m, construct one_asset = Ok m /\ forall v, ~ feasible m v.
Proof.
  eexists. split; [vm_compute; reflexivity |].
  apply (C4_infeasible one_asset _ eq_refl).
  intros r [<- | []]. discriminate.
Defined.

(* ================================================================== *)
(** ** The aggregate long bounds *)

(** C2, at a concrete input: for one asset with bounds [-1, 1] the rows of
    [net_long_lower] are those of [net_long_upper] ([total <= 1]); the
    assignment that holds nothing long and shorts 0.5 is feasible for the built
    model although its total long allocation, 0, is below
    [net_lower_long_bound]. *)
Theorem C2_net_long_lower_not_enforced :
  exists m,
    construct one_asset_signed = Ok m
    /\ net_long_lower m
       = [("A"%string, Le (total_long (data m)) (Num net_upper_long_bound))]
    /\ net_long_lower m = net_long_upper m
    /\ feasible m (assign [(allocation_s "A", 1 # 2); (d_s "A", 1)])
    /\ eval (assign [(allocation_s "A", 1 # 2); (d_s "A", 1)])
            (total_long (data m)) == 0
    /\ ~ net_lower_long_bound
          <= eval (assign [(allocation_s "A", 1 # 2); (d_s "A", 1)])
                  (total_long (data m)).
Proof.
  eexists. split; [vm_compute; reflexivity |].
  split; [vm_compute; reflexivity |].
  split; [vm_compute; reflexivity |].
  split; [apply feasibleb_spec; vm_compute; reflexivity |].
  split; [vm_compute; reflexivity |].
  intro H. apply Qle_bool_iff in H. vm_compute in H. discriminate H.
Qed.

(* ================================================================== *)
(** ** The objective rule *)

Lemma return_term (d : model_data) (i : string) (e : expr) :
  (r <- param_get (returns d) i ;; Ok (py_mul (Num r) (net_position i)))
  = Ok e ->
  e = Mul (Num (dict_value (returns d) i)) (net_position i).
Proof.
  intro H. apply bind_ok in H as (r & Hr & H).
  apply param_get_ok in Hr as (_ & ->). ok_inj H. reflexivity.
Qed.

Lemma obj_rule_value (t : tables) (d : model_data) (e : expr)
  (v : assignment) :
  declare_data t = Ok d -> obj_rule d = Ok e ->
  eval v e
  == objective_spec (dict_value (returns d)) (fun i j => cov_value t (i, j))
       rho (investments d) v.
Proof.
  intros Hd H. unfold obj_rule in H.
  apply bind_ok in H as (terms & Hterms & H). apply Ok_inj in H. subst e.
  apply (for_each_ok_map _ _ _ (return_term d)) in Hterms. subst terms.
  destruct (declare_data_fields t d Hd) as (_ & _ & _ & _ & Hcov).
  rewrite Hcov, map_map. unfold objective_spec.
  rewrite eval_py_sub, eval_py_mul, !eval_py_sum, !map_map.
  rewrite num_sum_list_prod. simpl. reflexivity.
Qed.

(** In a built model every asset has an expected return and every ordered
    pair of assets a covariance. *)
Lemma return_defined (t : tables) (m : model) (i : string) :
  construct t = Ok m -> In i (investments (data m)) ->
  dict_get (returns (data m)) i <> None.
Proof.
  intros Hc Hi.
  destruct (construct_shape t m Hc) as (_ & _ & _ & Ho & _).
  unfold Objective in Ho. apply bind_ok in Ho as (e & He & _).
  unfold obj_rule in He. apply bind_ok in He as (terms & Hterms & _).
  destruct (for_each_ok_each _ _ _ Hterms i Hi) as (y & Hy & _).
  apply bind_ok in Hy as (r & Hr & _).
  apply param_get_ok in Hr as (Hr & _). rewrite Hr. discriminate.
Qed.

Lemma cov_defined (t : tables) (d : model_data) (i j : string) :
  declare_data t = Ok d -> In i (investments d) -> In j (investments d) ->
  cov_df t i j <> None.
Proof.
  unfold declare_data. intros H Hi Hj.
  apply bind_ok in H as (cov & Hcov & H). ok_inj H. simpl in Hi, Hj.
  destruct (for_each_ok_each _ _ _ Hcov (i, j)) as (y & Hy & _).
  - apply in_prod; assumption.
  - apply bind_ok in Hy as (c & Hc & _). unfold cov_init in Hc. simpl in Hc.
    destruct (cov_df t i j); [discriminate | discriminate Hc].
Qed.

(* ================================================================== *)
(** ** When the build succeeds *)

Lemma existsb_eqb_In (x : string) (l : list string) :
  existsb (String.eqb x) l = true <-> In x l.
Proof.
  rewrite existsb_exists. split.
  - intros (y & Hy & E). apply String.eqb_eq in E. subst y. exact Hy.
  - intro H. exists x. split; [exact H | apply String.eqb_refl].
Qed.

Lemma set_from_In (l : list string) :
  forall seen i, In i (set_from seen l) <-> In i l /\ ~ In i seen.
Proof.
  induction l as [| x t IH]; simpl; intros seen i.
  - tauto.
  - destruct (existsb (String.eqb x) seen) eqn:E.
    + apply existsb_eqb_In in E. rewrite IH. split.
      * intros (Hi & Hn). split; [right; exact Hi | exact Hn].
      * intros ([-> | Hi] & Hn); [contradiction | split; assumption].
    + assert (Hx : ~ In x seen).
      { intro Hx. apply existsb_eqb_In in Hx. congruence. }
      simpl. rewrite IH. simpl. split.
      * intros [-> | (Hi & Hn)]; [tauto | tauto].
      * intros ([-> | Hi] & Hn); [left; reflexivity |].
        destruct (string_dec x i) as [-> | Hne]; [left; reflexivity |].
        right. split; [exact Hi | tauto].
Qed.

Lemma Set_initialize_In (l : list string) (i : string) :
  In i (Set_initialize l) <-> In i l.
Proof. unfold Set_initialize. rewrite set_from_In. simpl. tauto. Qed.

Lemma Set_initialize_nil (l : list string) :
  Set_initialize l = [] <-> l = [].
Proof.
  split.
  - intro H. destruct l as [| x t]; [reflexivity |].
    assert (Hx : In x (Set_initialize (x :: t)))
      by (apply Set_initialize_In; left; reflexivity).
    rewrite H in Hx. contradiction.
  - intros ->. reflexivity.
Qed.

Lemma dict_get_some_acc (d : dict) (k : string) :
  forall acc,
    acc <> None \/ In k (map fst d) ->
    fold_left
      (fun acc kv => if String.eqb (fst kv) k then Some (snd kv) else acc)
      d acc <> None.
Proof.
  induction d as [| [k' q'] d IH]; simpl; intros acc H.
  - destruct H as [H | []]. exact H.
  - apply IH. destruct H as [H | [-> | H]].
    + left. destruct (String.eqb k' k); [discriminate | exact H].
    + left. rewrite String.eqb_refl. discriminate.
    + right. exact H.
Qed.

Lemma dict_zip_keys {A : Type} (f : A -> string) (g : A -> Q)
  (rows : list A) :
  map fst (dict_zip (map f rows) (map g rows)) = map f rows.
Proof.
  unfold dict_zip. induction rows as [| r rows IH]; simpl.
  - reflexivity.
  - rewrite IH. reflexivity.
Qed.

Lemma dict_zip_defined {A : Type} (f : A -> string) (g : A -> Q)
  (rows : list A) (k : string) :
  In k (map f rows) -> dict_get (dict_zip (map f rows) (map g rows)) k <> None.
Proof.
  intro H. unfold dict_get. apply dict_get_some_acc. right.
  rewrite dict_zip_keys. exact H.
Qed.

Lemma param_get_defined (p : dict) (i : string) :
  dict_get p i <> None -> param_get p i = Ok (dict_value p i).
Proof.
  unfold param_get, dict_value. destruct (dict_get p i); [reflexivity |].
  intro H. contradiction H. reflexivity.
Qed.

Lemma declare_data_total (t : tables) :
  (forall i j, In i (investment_strs t) -> In j (investment_strs t) ->
               cov_df t i j <> None) ->
  exists d, declare_data t = Ok d.
Proof.
  intro Hcov. unfold declare_data.
  destruct (for_each_total
              (fun ij => c <- cov_init t (fst ij) (snd ij) ;; Ok (ij, c))
              (list_prod (Set_initialize (investment_strs t))
                         (Set_initialize (investment_strs t))))
    as (cov & Hc).
  - intros (i, j) Hij. apply in_prod_iff in Hij. destruct Hij as (Hi & Hj).
    apply (proj1 (Set_initialize_In _ _)) in Hi.
    apply (proj1 (Set_initialize_In _ _)) in Hj. unfold cov_init. simpl.
    specialize (Hcov i j Hi Hj).
    destruct (cov_df t i j) as [c |]; [| contradiction Hcov; reflexivity].
    eexists. reflexivity.
  - rewrite Hc. eexists. reflexivity.
Qed.

Lemma indexed_total (idx : list string) (rule : string -> result py_value)
  (g : string -> string * relation) :
  (forall i, In i idx -> rule i = Ok (PyRel (snd (g i))) /\ fst (g i) = i) ->
  Constraint_indexed idx rule = Ok (map g idx).
Proof.
  intro H. unfold Constraint_indexed. apply for_each_map_ok.
  intros i Hi. destruct (H i Hi) as (Hr & Hf).
  unfold Constraint. rewrite Hr. simpl. rewrite <- Hf at 1.
  destruct (g i). reflexivity.
Qed.

(** The build succeeds on a non-empty asset table whose covariance table has
    an entry for every ordered pair of tickers. *)
Lemma construct_total (t : tables) :
  array_df t <> [] ->
  (forall i j, In i (investment_strs t) -> In j (investment_strs t) ->
               cov_df t i j <> None) ->
  exists m, construct t = Ok m.
Proof.
  intros Hne Hcov.
  destruct (declare_data_total t Hcov) as (d & Hd).
  destruct (declare_data_fields t d Hd) as (Hi & Hr & Hu & Hl & _).
  assert (Hidx : investments d <> []).
  { rewrite Hi. intro E. apply (proj1 (Set_initialize_nil _)) in E.
    unfold investment_strs in E. apply map_eq_nil in E. contradiction. }
  assert (Hmem : forall i, In i (investments d) -> In i (investment_strs t)).
  { intros i Hin. rewrite Hi in Hin.
    apply (proj1 (Set_initialize_In _ _)), Hin. }
  unfold construct. rewrite Hd. cbn [bind].
  assert (Ho : exists e, obj_rule d = Ok e).
  { unfold obj_rule.
    destruct (for_each_total
                (fun i => r <- param_get (returns d) i ;;
                          Ok (py_mul (Num r) (net_position i)))
                (investments d)) as (terms & Ht).
    - intros i Hin. rewrite param_get_defined.
      + eexists. reflexivity.
      + rewrite Hr. apply dict_zip_defined, Hmem, Hin.
    - rewrite Ht. eexists. reflexivity. }
  destruct Ho as (e & He). unfold Objective. rewrite He. cbn [bind].
  rewrite (indexed_total _ _ (long_bound_row d)).
  2:{ intros i Hin. split; [| reflexivity]. unfold lflag_rule.
      rewrite param_get_defined; [reflexivity |].
      rewrite Hu. apply dict_zip_defined, Hmem, Hin. }
  cbn [bind].
  rewrite (indexed_total _ _ (short_bound_row d)).
  2:{ intros i Hin. split; [| reflexivity]. unfold sflag_rule.
      rewrite param_get_defined; [reflexivity |].
      rewrite Hl. apply dict_zip_defined, Hmem, Hin. }
  cbn [bind].
  assert (Hcard : Constraint (card_rule d) = Ok (cardinality_row d)).
  { unfold Constraint, card_rule. simpl. rewrite py_le_rel; [reflexivity |].
    apply (py_sum_not_num (fun i => py_add (V (d_l i)) (V (d_s i))));
      [intro i; reflexivity | exact Hidx]. }
  rewrite Hcard. cbn [bind].
  rewrite (indexed_total _ _ exclusive_row).
  2:{ intros i Hin. split; reflexivity. }
  cbn [bind].
  rewrite (indexed_total _ _ (net_long_row d)).
  2:{ intros i Hin. split; [| reflexivity]. unfold netlong_rule_ub.
      rewrite py_le_rel; [reflexivity | apply total_long_not_num, Hidx]. }
  cbn [bind].
  rewrite (indexed_total _ _ (net_long_row d)).
  2:{ intros i Hin. split; [| reflexivity]. unfold netlong_rule_lb.
      rewrite py_le_rel; [reflexivity | apply total_long_not_num, Hidx]. }
  cbn [bind].
  rewrite (indexed_total _ _ (net_short_upper_row d)).
  2:{ intros i Hin. split; [| reflexivity]. unfold netshrt_rule_ub.
      rewrite py_le_rel; [reflexivity | apply total_short_not_num, Hidx]. }
  cbn [bind].
  rewrite (indexed_total _ _ (net_short_lower_row d)).
  2:{ intros i Hin. split; [| reflexivity]. unfold netshrt_rule_lb.
      rewrite py_ge_rel; [reflexivity | apply total_short_not_num, Hidx]. }
  cbn [bind]. eexists. reflexivity.
Qed.

(* ================================================================== *)
(** ** Size of the built model *)

Lemma Var_length (mk : string -> var) (idx : list string) (dom : domain) :
  List.length (Var mk idx dom) = List.length idx.
Proof. unfold Var. apply length_map. Qed.

(** C5, as the code has it: for every valid input the build returns a model
    which, with [n] the number of assets in the index set, has exactly one
    objective, exactly [7 * n + 1] constraints ([n] long-bound rows, [n]
    short-bound rows, one cardinality constraint, [n] exclusivity rows and [n]
    rows for each of the four aggregate families, every aggregate rule being
    declared over the index set) and exactly [4 * n] variables. *)
Theorem C5_model_size (t : tables) :
  valid_tables t ->
  exists m,
    construct t = Ok m
    /\ let n := List.length (investments (data m)) in
       List.length (objectives m) = 1%nat
       /\ List.length (constraints m) = (7 * n + 1)%nat
       /\ List.length (variables m) = (4 * n)%nat
       /\ List.length (cons_long_invest_ubs m) = n
       /\ List.length (cons_shrt_invest_lbs m) = n
       /\ List.length (cons_long_shrt_none m) = n
       /\ List.length (net_long_upper m) = n
       /\ List.length (net_long_lower m) = n
       /\ List.length (net_short_upper m) = n
       /\ List.length (net_short_lower m) = n.
Proof.
  intros (Hne & Hcov).
  destruct (construct_total t Hne Hcov) as (m & H).
  exists m. split; [exact H |]. intro n.
  destruct (construct_shape t m H)
    as (_ & _ & Hv & _ & _ & H1 & H2 & _ & H4 & H5 & H6 & H7 & H8).
  unfold constraints.
  rewrite Hv, H1, H2, H4, H5, H6, H7, H8.
  repeat rewrite ?length_app, ?length_map, ?Var_length.
  fold n. simpl. repeat split; lia.
Qed.

(** The size theorem at two assets: 15 constraints and 8 variables. *)
Lemma C5_model_size_witness :
  valid_tables two_assets
  /\ exists m, construct two_assets = Ok m
               /\ List.length (constraints m) = 15%nat
               /\ List.length (variables m) = 8%nat.
Proof.
  assert (Hv : valid_tables two_assets).
  { split; [discriminate |].
    intros i j [<- | [<- | []]] [<- | [<- | []]]; discriminate. }
  split; [exact Hv |].
  destruct (C5_model_size two_assets Hv) as (m & Hm & H).
  exists m. split; [exact Hm |].
  vm_compute in Hm. apply Ok_inj in Hm. subst m.
  split; reflexivity.
Defined.

(** C5, as stated, fails: with two assets the build yields 15 constraints,
    not [5 * 2 + 3 = 13]. *)
Lemma C5_not_5n_plus_3 :
  exists m, construct two_assets = Ok m
            /\ List.length (investments (data m)) = 2%nat
            /\ List.length (constraints m) = 15%nat
            /\ List.length (constraints m) <> (5 * 2 + 3)%nat.
Proof.
  eexists. split; [vm_compute; reflexivity |].
  vm_compute. repeat split; discriminate.
Qed.

(* ================================================================== *)
(** ** The built objective *)

(** C10: for every valid input the build returns a model with the single
    objective [OBJ], whose sense is [maximize] and whose expression has, under
    every assignment, the value of
    [sum_i r_i (l_i - s_i)
     - rho * sum_i sum_j Cov(i,j) (l_i - s_i) (l_j - s_j)],
    the double sum over all ordered pairs of assets, with [r_i] the asset's
    entry of the [returns] column and [Cov(i,j)] the entry of the covariance
    table, each of them present. *)
Theorem C10_objective (t : tables) :
  valid_tables t ->
  exists m,
    construct t = Ok m
    /\ objectives m = [OBJ m]
    /\ obj_sense (OBJ m) = maximize
    /\ (forall v,
          eval v (obj_expr (OBJ m))
          == objective_spec
               (dict_value (dict_zip (investment_strs t) (return_floats t)))
               (fun i j => cov_value t (i, j))
               rho (investments (data m)) v)
    /\ (forall i, In i (investments (data m)) ->
          dict_get (dict_zip (investment_strs t) (return_floats t)) i
          <> None)
    /\ (forall i j,
          In i (investments (data m)) -> In j (investments (data m)) ->
          cov_df t i j <> None).
Proof.
  intros (Hne & Hcov).
  destruct (construct_total t Hne Hcov) as (m & Hc).
  exists m. split; [exact Hc |].
  destruct (construct_shape t m Hc) as (Hd & _ & _ & Ho & _).
  destruct (declare_data_fields t _ Hd) as (_ & Hr & _).
  split; [reflexivity |].
  unfold Objective in Ho. apply bind_ok in Ho as (e & He & Ho). ok_inj Ho.
  split; [rewrite <- Ho; reflexivity |]. split; [| split].
  - intro v. rewrite <- Ho, <- Hr. simpl. apply obj_rule_value; assumption.
  - intros i Hi. rewrite <- Hr. apply (return_defined t m i Hc Hi).
  - intros i j. apply cov_defined, Hd.
Qed.

(** The objective theorem at two assets. *)
Lemma C10_objective_witness :
  valid_tables two_assets
  /\ exists m, construct two_assets = Ok m /\ obj_sense (OBJ m) = maximize.
Proof.
  assert (Hv : valid_tables two_assets).
  { split; [discriminate |].
    intros i j [<- | [<- | []]] [<- | [<- | []]]; discriminate. }
  split; [exact Hv |].
  destruct (C10_objective two_assets Hv) as (m & Hm & _ & Hs & _).
  exists m. split; assumption.
Defined.

(* ================================================================== *)
(** ** Validation of the covariance table *)

(** C9, as the code has it: the covariance table is never checked for
    symmetry.  The build succeeds exactly when the asset table is not empty
    and the covariance table has an entry for every ordered pair of tickers,
    and the entries are taken as they are. *)
Theorem C9_no_symmetry_check (t : tables) :
  ((exists m, construct t = Ok m) <-> valid_tables t)
  /\ (forall m, construct t = Ok m ->
        covariance_mat (data m)
        = map (fun ij => (ij, cov_value t ij))
              (list_prod (investments (data m)) (investments (data m)))).
Proof.
  split; [split |].
  - intros (m & Hc).
    destruct (construct_shape t m Hc) as (Hd & Hne & _).
    destruct (declare_data_fields t _ Hd) as (Hi & _).
    split.
    + intro E. apply Hne. rewrite Hi. unfold investment_strs. rewrite E.
      reflexivity.
    + intros i j Hin Hjn. apply (cov_defined t (data m) i j Hd);
        rewrite Hi; apply Set_initialize_In; assumption.
  - intros (Hne & Hcov). apply construct_total; assumption.
  - intros m Hc. destruct (construct_shape t m Hc) as (Hd & _).
    apply (declare_data_fields t _ Hd).
Qed.

(** The theorem at the asymmetric two-asset input: the build succeeds. *)
Lemma C9_no_symmetry_check_witness :
  exists m, construct two_assets_asym = Ok m.
Proof.
  apply (proj1 (C9_no_symmetry_check two_assets_asym)). split.
  - discriminate.
  - intros i j [<- | [<- | []]] [<- | [<- | []]]; discriminate.
Defined.

(** C9, as stated, fails: a table with [cov[A,B] = 1] and [cov[B,A] = 2] is
    accepted, and both entries enter the model as they are. *)
Lemma C9_asymmetric_table_accepted :
  exists m,
    construct two_assets_asym = Ok m
    /\ cov_df two_assets_asym "A" "B" = Some 1
    /\ cov_df two_assets_asym "B" "A" = Some 2
    /\ (1 # 1000000000) < 2 - 1
    /\ In (("A"%string, "B"%string), 1) (covariance_mat (data m))
    /\ In (("B"%string, "A"%string), 2) (covariance_mat (data m)).
Proof.
  eexists. split; [vm_compute; reflexivity |].
  split; [reflexivity |]. split; [reflexivity |].
  split; [reflexivity |]. simpl. split; [tauto | tauto].
Qed.

(* ================================================================== *)
(** ** The figures derived after the solve *)

Section Figures.

Variable sqrt_pos : Q -> Q.

Lemma value_of_agree (vals : values) (v : assignment) (x : var) :
  vals x = Some (v x) -> value_of vals x = Ok (v x).
Proof. unfold value_of. intros ->. reflexivity. Qed.

Lemma net_value_agree (vals : values) (v : assignment) (i : string) :
  vals (allocation_l i) = Some (v (allocation_l i)) ->
  vals (allocation_s i) = Some (v (allocation_s i)) ->
  net_value vals i = Ok (v (allocation_l i) - v (allocation_s i)).
Proof.
  intros Hl Hs. unfold net_value.
  rewrite (value_of_agree _ _ _ Hl), (value_of_agree _ _ _ Hs). reflexivity.
Qed.

Lemma view_results_values (t : tables) (m : model) (vals : values)
  (v : assignment) :
  construct t = Ok m ->
  (forall x, In x (map fst (variables m)) -> vals x = Some (v x)) ->
  view_results sqrt_pos m vals = Ok (report_of sqrt_pos m v).
Proof.
  intros Hc Hv.
  destruct (construct_shape t m Hc) as (Hd & _ & Hvars & _).
  destruct (declare_data_fields t _ Hd) as (_ & _ & _ & _ & Hcov).
  assert (Hx : forall mk i,
             In (mk, i) [(allocation_s, i); (allocation_l, i);
                         (d_l, i); (d_s, i)] ->
             In i (investments (data m)) -> vals (mk i) = Some (v (mk i))).
  { intros mk i Hmk Hi. apply Hv. rewrite Hvars, !map_app, !in_app_iff.
    unfold Var. rewrite !map_map. simpl.
    destruct Hmk as [E | [E | [E | [E | []]]]]; ok_inj E;
      [left | right; left | right; right; left | right; right; right];
      apply in_map_iff; exists i; split; auto. }
  assert (Hs : forall i, In i (investments (data m)) ->
               vals (allocation_s i) = Some (v (allocation_s i)))
    by (intros i; apply (Hx allocation_s); simpl; tauto).
  assert (Hl : forall i, In i (investments (data m)) ->
               vals (allocation_l i) = Some (v (allocation_l i)))
    by (intros i; apply (Hx allocation_l); simpl; tauto).
  assert (Hdl : forall i, In i (investments (data m)) ->
                vals (d_l i) = Some (v (d_l i)))
    by (intros i; apply (Hx d_l); simpl; tauto).
  assert (Hds : forall i, In i (investments (data m)) ->
                vals (d_s i) = Some (v (d_s i)))
    by (intros i; apply (Hx d_s); simpl; tauto).
  unfold view_results.
  rewrite (for_each_map_ok _
             (fun i => dict_value (returns (data m)) i
                       * (v (allocation_l i) - v (allocation_s i)))).
  2:{ intros i Hi. rewrite param_get_defined.
      - cbn [bind]. rewrite (net_value_agree _ v) by auto. reflexivity.
      - apply (return_defined t m i Hc Hi). }
  cbn [bind].
  rewrite (for_each_map_ok _
             (fun e => snd e
                       * (v (allocation_l (fst (fst e)))
                          - v (allocation_s (fst (fst e))))
                       * (v (allocation_l (snd (fst e)))
                          - v (allocation_s (snd (fst e)))))).
  2:{ intros e He. rewrite Hcov in He. apply in_map_iff in He.
      destruct He as ((i, j) & <- & Hij). apply in_prod_iff in Hij.
      destruct Hij as (Hi & Hj). simpl.
      rewrite !(net_value_agree _ v) by auto. reflexivity. }
  cbn [bind].
  rewrite (for_each_map_ok _ (fun i => v (d_l i) + v (d_s i))).
  2:{ intros i Hi. rewrite !(value_of_agree _ v) by auto. reflexivity. }
  cbn [bind].
  rewrite (for_each_map_ok _ (fun i => v (d_l i) * v (allocation_l i))).
  2:{ intros i Hi. rewrite !(value_of_agree _ v) by auto. reflexivity. }
  cbn [bind].
  rewrite (for_each_map_ok _ (fun i => v (d_l i))).
  2:{ intros i Hi. rewrite !(value_of_agree _ v) by auto. reflexivity. }
  cbn [bind].
  rewrite (for_each_map_ok _ (fun i => v (d_s i) * v (allocation_s i))).
  2:{ intros i Hi. rewrite !(value_of_agree _ v) by auto. reflexivity. }
  cbn [bind].
  rewrite (for_each_map_ok _ (fun i => v (d_s i))).
  2:{ intros i Hi. rewrite !(value_of_agree _ v) by auto. reflexivity. }
  cbn [bind].
  rewrite (for_each_map_ok _
             (fun i => (i, v (allocation_l i), v (allocation_s i)))).
  2:{ intros i Hi. rewrite !(value_of_agree _ v) by auto. reflexivity. }
  cbn [bind]. reflexivity.
Qed.

Lemma np_sqrt_zero (x : Q) : x == 0 -> np_sqrt sqrt_pos x = fl_fin 0.
Proof.
  intro H. unfold np_sqrt, Qneg_bool.
  assert (E1 : Qle_bool 0 x = true) by (apply Qle_bool_iff; lra).
  assert (E2 : Qeq_bool x 0 = true) by (apply Qeq_bool_iff; exact H).
  rewrite E1, E2. reflexivity.
Qed.

Lemma sharpe_zero_variance (rs_ covs_ : Q) :
  covs_ == 0 ->
  let s := np_div (np_mul (np_sqrt sqrt_pos 252) rs_)
                  (np_sqrt sqrt_pos covs_) in
  (s = fl_nan \/ exists b, s = fl_inf b) /\ (rs_ == 0 -> s = fl_nan).
Proof.
  intros H s. subst s. rewrite (np_sqrt_zero _ H).
  change (np_sqrt sqrt_pos 252) with (fl_fin (sqrt_pos 252)).
  cbn [np_mul np_div].
  change (Qeq_bool 0 0) with true. cbv iota.
  destruct (Qeq_bool (sqrt_pos 252 * rs_) 0) eqn:E.
  - split; [left; reflexivity | reflexivity].
  - split; [right; eexists; reflexivity |].
    intro Hz. apply Qeq_bool_neq in E. contradiction E. rewrite Hz. ring.
Qed.

End Figures.

(* ================================================================== *)
(** ** Solver status *)

(** C6, as the code has it: the status returned by the solver is never read.
    Whenever the variables of the built model hold numbers after the solve,
    whatever the status, the script derives the report from them; any solver
    that leaves the same values, with any status, yields the same report. *)
Theorem C6_status_not_read (sqrt_pos : Q -> Q) (t : tables) (m : model)
  (opt_solve : solver) (v : assignment) :
  construct t = Ok m ->
  (forall x, In x (map fst (variables m)) ->
             snd (opt_solve m) x = Some (v x)) ->
  script sqrt_pos t opt_solve = Ok (report_of sqrt_pos m v)
  /\ forall st, script sqrt_pos t (fun _ => (st, snd (opt_solve m)))
                = Ok (report_of sqrt_pos m v).
Proof.
  intros Hc Hv. unfold script. rewrite Hc. cbn [bind fst snd].
  split; [| intros _]; apply (view_results_values sqrt_pos t m _ v Hc Hv).
Qed.

(** The theorem at one asset with bounds [-1, 1], for a solver that times out
    and leaves a feasible incumbent. *)
Lemma C6_status_not_read_witness :
  exists m,
    construct one_asset_signed = Ok m
    /\ script sqrt6 one_asset_signed
         (fun _ => (TimedOut,
                    set_values (assign [(allocation_s "A", 1 # 2);
                                        (d_s "A", 1)])))
       = Ok (report_of sqrt6 m
               (assign [(allocation_s "A", 1 # 2); (d_s "A", 1)])).
Proof.
  eexists. split; [vm_compute; reflexivity |].
  refine (proj1 (C6_status_not_read sqrt6 one_asset_signed _
                   (fun _ => (TimedOut,
                              set_values (assign [(allocation_s "A", 1 # 2);
                                                  (d_s "A", 1)])))
                   (assign [(allocation_s "A", 1 # 2); (d_s "A", 1)])
                   eq_refl _)).
  intros x _. reflexivity.
Defined.

(** C6, as stated, fails: a solver that times out and leaves its feasible
    incumbent in the variables gets a report, with every figure derived. *)
Lemma C6_report_despite_status :
  let v := assign [(allocation_s "A", 1 # 2); (d_s "A", 1)] in
  exists m r,
    construct one_asset_signed = Ok m
    /\ feasible m v
    /\ script sqrt6 one_asset_signed (fun _ => (TimedOut, set_values v)) = Ok r
    /\ rs r == - (5 # 10000)
    /\ covs r == 25 # 1000000
    /\ cards r == 1
    /\ tshrt r == 1 # 2
    /\ ann_sharpe r = fl_fin (sqrt6 252 * (0 + (1 # 1000) * (0 - (1 # 2)))
                             / sqrt6 (0 + (1 # 10000) * (0 - (1 # 2))
                                            * (0 - (1 # 2)))).
Proof.
  cbv zeta. eexists. eexists. split; [vm_compute; reflexivity |].
  split; [apply feasibleb_spec; vm_compute; reflexivity |].
  split; [vm_compute; reflexivity |].
  repeat split; reflexivity.
Qed.

(* ================================================================== *)
(** ** The Sharpe ratio at zero variance *)

(** C7, as the code has it: when the variables hold numbers the report is
    returned, and when the variance derived from them is exactly zero its
    Sharpe figure is the result of a numpy division by zero: nan or an
    infinity, and nan whenever the net return is zero as well, as it is with
    all allocations zero.  No exception is raised and no other value is put
    in its place. *)
Theorem C7_sharpe_at_zero_variance (sqrt_pos : Q -> Q) (t : tables)
  (m : model) (opt_solve : solver) (v : assignment) :
  construct t = Ok m ->
  (forall x, In x (map fst (variables m)) ->
             snd (opt_solve m) x = Some (v x)) ->
  exists r,
    script sqrt_pos t opt_solve = Ok r
    /\ (covs r == 0 ->
        (ann_sharpe r = fl_nan \/ exists b, ann_sharpe r = fl_inf b)
        /\ (rs r == 0 -> ann_sharpe r = fl_nan))
    /\ ((forall i, In i (investments (data m)) ->
           v (allocation_l i) == 0 /\ v (allocation_s i) == 0) ->
        covs r == 0 /\ ann_sharpe r = fl_nan).
Proof.
  intros Hc Hv. exists (report_of sqrt_pos m v). split; [| split].
  - unfold script. rewrite Hc. cbn [bind].
    apply (view_results_values sqrt_pos t m _ v Hc Hv).
  - intro Hz. apply sharpe_zero_variance, Hz.
  - intro Hzero.
    destruct (construct_shape t m Hc) as (Hd & _).
    destruct (declare_data_fields t _ Hd) as (_ & _ & _ & _ & Hcov).
    assert (Hcovs : covs (report_of sqrt_pos m v) == 0).
    { cbn [covs report_of]. apply num_sum_zero. intros e He.
      rewrite Hcov in He. apply in_map_iff in He.
      destruct He as ((i, j) & <- & Hij). apply in_prod_iff in Hij.
      destruct Hij as (Hi & Hj). cbn [fst snd].
      destruct (Hzero i Hi) as (Hl & Hs). rewrite Hl, Hs. ring. }
    assert (Hrs : rs (report_of sqrt_pos m v) == 0).
    { cbn [rs report_of]. apply num_sum_zero. intros i Hi.
      destruct (Hzero i Hi) as (Hl & Hs). rewrite Hl, Hs. ring. }
    split; [exact Hcovs |].
    apply (sharpe_zero_variance sqrt_pos _ _ Hcovs), Hrs.
Qed.

(** The theorem at one asset, with every value zero. *)
Lemma C7_sharpe_at_zero_variance_witness :
  exists m r,
    construct one_asset = Ok m
    /\ script sqrt6 one_asset (fun _ => (Optimal, set_values (assign [])))
       = Ok r
    /\ covs r == 0
    /\ ann_sharpe r = fl_nan.
Proof.
  eexists.
  destruct (C7_sharpe_at_zero_variance sqrt6 one_asset _
              (fun _ => (Optimal, set_values (assign []))) (assign [])
              eq_refl (fun x _ => eq_refl)) as (r & Hr & _ & Hz).
  exists r. split; [reflexivity |]. split; [exact Hr |].
  apply Hz. intros i _. split; reflexivity.
Defined.

(** C7, as stated, fails: with every allocation zero the report is returned
    and its Sharpe figure is nan. *)
Lemma C7_nan_reported :
  exists r,
    script sqrt6 one_asset (fun _ => (Optimal, set_values (assign []))) = Ok r
    /\ covs r == 0
    /\ daily_vol r = fl_fin 0
    /\ ann_sharpe r = fl_nan.
Proof.
  eexists. split; [vm_compute; reflexivity |].
  split; [reflexivity |]. split; reflexivity.
Qed.

(* ================================================================== *)
(** ** Total allocations *)

Lemma weighted_is_plain (d x ub : Q) :
  (d == 0 \/ d == 1) -> 0 <= x -> x <= d * ub -> d * x == x.
Proof.
  intros [Hd | Hd] Hx Hub; rewrite Hd in *; [| ring].
  assert (E : x == 0) by lra. rewrite E. ring.
Qed.

(** C8, as the code has it: when the variables hold numbers, the reported
    totals are the sums of the allocations weighted by the indicator values,
    [sum_i d_l_i * l_i] and [sum_i d_s_i * s_i]; they are the plain sums
    [sum_i l_i] and [sum_i s_i] when the values are feasible for the built
    model. *)
Theorem C8_totals_weighted (sqrt_pos : Q -> Q) (t : tables) (m : model)
  (vals : values) (v : assignment) :
  construct t = Ok m ->
  (forall x, In x (map fst (variables m)) -> vals x = Some (v x)) ->
  exists r,
    view_results sqrt_pos m vals = Ok r
    /\ tlong r
       == num_sum (map (fun i => v (d_l i) * v (allocation_l i))
                       (investments (data m)))
    /\ tshrt r
       == num_sum (map (fun i => v (d_s i) * v (allocation_s i))
                       (investments (data m)))
    /\ (feasible m v ->
        tlong r == num_sum (map (fun i => v (allocation_l i))
                                (investments (data m)))
        /\ tshrt r == num_sum (map (fun i => v (allocation_s i))
                                   (investments (data m)))).
Proof.
  intros Hc Hv. exists (report_of sqrt_pos m v).
  split; [apply (view_results_values sqrt_pos t m vals v Hc Hv) |].
  cbn [tlong tshrt report_of].
  split; [reflexivity |]. split; [reflexivity |].
  intro Hf. split; apply num_sum_ext; intros i Hi;
    destruct (feasible_at t m v i Hc Hf Hi)
      as (Hs & Hl & Hdl & Hds & Hub & Hlb & _).
  - apply (weighted_is_plain _ _ _ Hdl Hl Hub).
  - apply (weighted_is_plain _ _ (- dict_value (lower_asset_bounds (data m)) i)
             Hds Hs).
    lra.
Qed.

(** The theorem at one asset with bounds [-1, 1], shorted at 0.5. *)
Lemma C8_totals_weighted_witness :
  exists m r,
    construct one_asset_signed = Ok m
    /\ view_results sqrt6 m
         (set_values (assign [(allocation_s "A", 1 # 2); (d_s "A", 1)]))
       = Ok r
    /\ tshrt r == 1 # 2.
Proof.
  eexists.
  destruct (C8_totals_weighted sqrt6 one_asset_signed _
              (set_values (assign [(allocation_s "A", 1 # 2); (d_s "A", 1)]))
              (assign [(allocation_s "A", 1 # 2); (d_s "A", 1)])
              eq_refl (fun x _ => eq_refl)) as (r & Hr & _ & _ & H).
  exists r. split; [reflexivity |]. split; [exact Hr |].
  destruct H as (_ & Hs).
  - apply feasibleb_spec. vm_compute. reflexivity.
  - rewrite Hs. reflexivity.
Defined.

(** C8, as stated, fails: with the first asset long at 0.05 and its indicator
    returned as 0.999999, the reported total long allocation is 0.04999995,
    not the plain sum 0.05. *)
Lemma C8_total_long_weighted :
  let v := assign [(allocation_l "A", 5 # 100); (d_l "A", 999999 # 1000000);
                   (allocation_s "B", 1 # 2); (d_s "B", 1)] in
  exists r,
    script sqrt6 two_assets (fun _ => (Optimal, set_values v)) = Ok r
    /\ tlong r == 4999995 # 100000000
    /\ num_sum (map (fun i => v (allocation_l i)) ["A"; "B"]%string) == 5 # 100
    /\ ~ tlong r
          == num_sum (map (fun i => v (allocation_l i)) ["A"; "B"]%string).
Proof.
  eexists. split; [vm_compute; reflexivity |].
  split; [reflexivity |]. split; [reflexivity |].
  intro H. vm_compute in H. discriminate H.
Qed.

(* ================================================================== *)
(** * Further properties of the built model *)

(** ** More on sums *)

Lemma num_sum_plus {A : Type} (f g : A -> Q) (l : list A) :
  num_sum (map (fun x => f x + g x) l)
  == num_sum (map f l) + num_sum (map g l).
Proof.
  induction l as [| x t IH]; simpl.
  - unfold num_sum. simpl. ring.
  - rewrite !num_sum_cons, IH. ring.
Qed.

Lemma num_sum_minus {A : Type} (f g : A -> Q) (l : list A) :
  num_sum (map (fun x => f x - g x) l)
  == num_sum (map f l) - num_sum (map g l).
Proof.
  induction l as [| x t IH]; simpl.
  - unfold num_sum. simpl. ring.
  - rewrite !num_sum_cons, IH. ring.
Qed.

Lemma num_sum_le {A : Type} (f g : A -> Q) (l : list A) :
  (forall x, In x l -> f x <= g x) ->
  num_sum (map f l) <= num_sum (map g l).
Proof.
  induction l as [| x t IH]; simpl; intro H.
  - apply Qle_refl.
  - rewrite !num_sum_cons.
    assert (Hx : f x <= g x) by (apply H; left; reflexivity).
    assert (Ht : num_sum (map f t) <= num_sum (map g t))
      by (apply IH; intros y Hy; apply H; right; exact Hy).
    lra.
Qed.

Lemma num_sum_nonneg {A : Type} (f : A -> Q) (l : list A) :
  (forall x, In x l -> 0 <= f x) -> 0 <= num_sum (map f l).
Proof.
  induction l as [| x t IH]; simpl; intro H.
  - apply Qle_refl.
  - rewrite num_sum_cons.
    assert (Hx : 0 <= f x) by (apply H; left; reflexivity).
    assert (Ht : 0 <= num_sum (map f t))
      by (apply IH; intros y Hy; apply H; right; exact Hy).
    lra.
Qed.

(** A positive sum has a positive term. *)
Lemma num_sum_pos_term {A : Type} (f : A -> Q) (l : list A) :
  0 < num_sum (map f l) -> exists x, In x l /\ 0 < f x.
Proof.
  induction l as [| x t IH]; simpl; intro H.
  - unfold num_sum in H. simpl in H. lra.
  - rewrite num_sum_cons in H.
    destruct (Qlt_le_dec 0 (f x)) as [Hx | Hx].
    + exists x. split; [left; reflexivity | exact Hx].
    + destruct IH as (y & Hy & Hpos); [lra |].
      exists y. split; [right; exact Hy | exact Hpos].
Qed.

Lemma num_sum_const {A : Type} (c : Q) (l : list A) :
  num_sum (map (fun _ => c) l) == inject_Z (Z.of_nat (List.length l)) * c.
Proof.
  induction l as [| x t IH].
  - unfold num_sum. simpl. ring.
  - cbn [map List.length]. rewrite num_sum_cons, IH, Nat2Z.inj_succ.
    unfold Z.succ. rewrite inject_Z_plus. ring.
Qed.

(** ** Per-asset rows *)

Lemma upper_bound_defined (t : tables) (m : model) (i : string) :
  construct t = Ok m -> In i (investments (data m)) ->
  exists ub, dict_get (upper_asset_bounds (data m)) i = Some ub.
Proof.
  intros Hc Hi.
  destruct (construct_shape t m Hc) as (Hd & _).
  destruct (declare_data_fields t _ Hd) as (Hidx & _ & Hu & _).
  rewrite Hidx in Hi. apply (proj1 (Set_initialize_In _ _)) in Hi.
  destruct (dict_get (upper_asset_bounds (data m)) i) as [ub |] eqn:E.
  - exists ub. reflexivity.
  - exfalso. rewrite Hu in E. revert E.
    apply (dict_zip_defined col_tickers col_ubounds), Hi.
Qed.

(** X1 (lflag_rule): in a built model, under every feasible assignment, the
    long allocation of an asset is zero unless its long indicator is set, and
    with the indicator set it lies between zero and the asset's [ubounds]
    entry. *)
Theorem X1_long_allocation_bounded (t : tables) (m : model) (v : assignment)
  (i : string) (ub : Q) :
  construct t = Ok m -> feasible m v -> In i (investments (data m)) ->
  dict_get (upper_asset_bounds (data m)) i = Some ub ->
  0 <= v (allocation_l i)
  /\ (v (d_l i) == 0 -> v (allocation_l i) == 0)
  /\ (0 < v (allocation_l i) -> v (d_l i) == 1 /\ v (allocation_l i) <= ub).
Proof.
  intros Hc Hf Hi Hub.
  destruct (feasible_at t m v i Hc Hf Hi)
    as (_ & Hl & Hdl & _ & Hrow & _).
  rewrite (dict_value_get _ _ _ Hub) in Hrow.
  split; [exact Hl |]. split.
  - intro Hz. rewrite Hz in Hrow. lra.
  - intro Hpos. destruct Hdl as [Hd | Hd]; rewrite Hd in Hrow.
    + lra.
    + split; [exact Hd | lra].
Qed.

(** The theorem at two assets, the first long and the second short. *)
Lemma X1_long_allocation_bounded_witness :
  exists m,
    construct two_assets = Ok m
    /\ feasible m long_A_short_B
    /\ long_A_short_B (d_l "A") == 1
    /\ long_A_short_B (allocation_l "A") <= 1 # 10.
Proof.
  eexists. split; [vm_compute; reflexivity |].
  match goal with
  | |- feasible ?M ?v /\ _ =>
      assert (Hf : feasible M v)
        by (apply feasibleb_spec; vm_compute; reflexivity)
  end.
  split; [exact Hf |].
  apply (X1_long_allocation_bounded two_assets _ _ "A"%string (1 # 10)
           eq_refl Hf).
  - left. reflexivity.
  - reflexivity.
  - reflexivity.
Defined.

(** X2 (binary_rule, with lflag_rule and sflag_rule): in a built model no
    feasible assignment holds an asset both long and short: one of the two
    allocations is zero. *)
Theorem X2_never_long_and_short (t : tables) (m : model) (v : assignment)
  (i : string) :
  construct t = Ok m -> feasible m v -> In i (investments (data m)) ->
  v (allocation_l i) == 0 \/ v (allocation_s i) == 0.
Proof.
  intros Hc Hf Hi.
  destruct (feasible_at t m v i Hc Hf Hi)
    as (Hs & Hl & Hdl & Hds & Hub & Hlb & Hex).
  destruct Hdl as [Hd | Hd].
  - left. rewrite Hd in Hub. lra.
  - right. destruct Hds as [He | He].
    + rewrite He in Hlb. lra.
    + rewrite Hd, He in Hex. lra.
Qed.

(** The theorem at two assets, the first long and the second short. *)
Lemma X2_never_long_and_short_witness :
  exists m,
    construct two_assets = Ok m
    /\ feasible m long_A_short_B
    /\ (long_A_short_B (allocation_l "B") == 0
        \/ long_A_short_B (allocation_s "B") == 0).
Proof.
  eexists. split; [vm_compute; reflexivity |].
  match goal with
  | |- feasible ?M ?v /\ _ =>
      assert (Hf : feasible M v)
        by (apply feasibleb_spec; vm_compute; reflexivity)
  end.
  split; [exact Hf |].
  apply (X2_never_long_and_short two_assets _ _ "B"%string eq_refl Hf).
  right. left. reflexivity.
Defined.

(** ** The cardinality limit *)

Lemma eval_cardinality_row (v : assignment) (d : model_data) :
  holds v (cardinality_row d)
  <-> num_sum (map (fun i => v (d_l i) + v (d_s i)) (investments d)) <= card.
Proof.
  unfold cardinality_row. cbn [holds]. rewrite eval_py_sum, map_map.
  reflexivity.
Qed.

Lemma feasible_cardinality (t : tables) (m : model) (v : assignment) :
  construct t = Ok m -> feasible m v ->
  num_sum (map (fun i => v (d_l i) + v (d_s i)) (investments (data m)))
  <= card.
Proof.
  intros Hc (_ & Hr).
  destruct (construct_shape t m Hc)
    as (_ & _ & _ & _ & _ & _ & _ & H3 & _).
  apply eval_cardinality_row. rewrite <- H3.
  rewrite Forall_forall in Hr. apply Hr.
  unfold constraints. rewrite !in_app_iff. simpl. tauto.
Qed.

(** The number of flagged items is at most the sum of weights that are at
    least one on them and not negative elsewhere. *)
Lemma count_le_sum {A : Type} (p : A -> bool) (f : A -> Q) (l : list A) :
  (forall x, In x l -> 0 <= f x /\ (p x = true -> 1 <= f x)) ->
  inject_Z (Z.of_nat (List.length (filter p l))) <= num_sum (map f l).
Proof.
  induction l as [| x t IH]; intro H.
  - unfold num_sum. simpl. apply Qle_refl.
  - assert (Ht : inject_Z (Z.of_nat (List.length (filter p t)))
                 <= num_sum (map f t))
      by (apply IH; intros y Hy; apply H; right; exact Hy).
    destruct (H x (or_introl eq_refl)) as (H0 & H1).
    cbn [map filter]. rewrite num_sum_cons.
    destruct (p x) eqn:E.
    + cbn [List.length]. rewrite Nat2Z.inj_succ. unfold Z.succ.
      rewrite inject_Z_plus. specialize (H1 eq_refl).
      change (inject_Z 1) with 1. lra.
    + lra.
Qed.

(** X3 (card_rule): in a built model, under every feasible assignment, at
    most 15 assets carry a long or a short allocation. *)
Theorem X3_at_most_card_positions (t : tables) (m : model) (v : assignment) :
  construct t = Ok m -> feasible m v ->
  (position_count v (investments (data m)) <= 15)%nat.
Proof.
  intros Hc Hf.
  assert (H : inject_Z (Z.of_nat (position_count v (investments (data m))))
              <= card).
  { eapply Qle_trans; [| apply (feasible_cardinality t m v Hc Hf)].
    apply count_le_sum. intros i Hi.
    destruct (feasible_at t m v i Hc Hf Hi)
      as (Hs & Hl & Hdl & Hds & Hub & Hlb & _).
    split.
    - destruct Hdl as [-> | ->], Hds as [-> | ->]; lra.
    - unfold holds_position. intro Hp. apply orb_true_iff in Hp.
      destruct Hp as [Hp | Hp]; apply negb_true_iff in Hp;
        apply Qeq_bool_neq in Hp.
      + destruct Hdl as [Hd | Hd].
        * exfalso. apply Hp. rewrite Hd in Hub. lra.
        * destruct Hds as [He | He]; rewrite Hd, He; lra.
      + destruct Hds as [He | He].
        * exfalso. apply Hp. rewrite He in Hlb. lra.
        * destruct Hdl as [Hd | Hd]; rewrite Hd, He; lra. }
  unfold card in H. change 15 with (inject_Z 15) in H.
  rewrite <- Zle_Qle in H. lia.
Qed.

(** The theorem at two assets, both carrying a position. *)
Lemma X3_at_most_card_positions_witness :
  exists m,
    construct two_assets = Ok m
    /\ feasible m long_A_short_B
    /\ (position_count long_A_short_B (investments (data m)) <= 15)%nat.
Proof.
  eexists. split; [vm_compute; reflexivity |].
  match goal with
  | |- feasible ?M ?v /\ _ =>
      assert (Hf : feasible M v)
        by (apply feasibleb_spec; vm_compute; reflexivity)
  end.
  split; [exact Hf |].
  apply (X3_at_most_card_positions two_assets _ _ eq_refl Hf).
Defined.

(** X4 (card_rule, binary_rule): in a built model with at most 15 assets the
    cardinality constraint follows from the exclusivity rows: every
    assignment that satisfies each row [d_l_i + d_s_i <= 1] satisfies it. *)
Theorem X4_cardinality_implied (t : tables) (m : model) (v : assignment) :
  construct t = Ok m ->
  (List.length (investments (data m)) <= 15)%nat ->
  Forall (holds v) (map snd (cons_long_shrt_none m)) ->
  holds v (cons_cardinality_ubs m).
Proof.
  intros Hc Hn Hex.
  destruct (construct_shape t m Hc)
    as (_ & _ & _ & _ & _ & _ & _ & H3 & H4 & _).
  rewrite H3. apply eval_cardinality_row.
  rewrite H4, Forall_forall in Hex.
  eapply Qle_trans.
  - apply (num_sum_le _ (fun _ => 1)). intros i Hi.
    apply (Hex (snd (exclusive_row i))). apply in_map, in_map, Hi.
  - rewrite num_sum_const. unfold card. change 15 with (inject_Z 15).
    rewrite Qmult_1_r, <- Zle_Qle. lia.
Qed.

(** The theorem at two assets. *)
Lemma X4_cardinality_implied_witness :
  exists m,
    construct two_assets = Ok m
    /\ holds long_A_short_B (cons_cardinality_ubs m).
Proof.
  eexists. split; [vm_compute; reflexivity |].
  apply (X4_cardinality_implied two_assets _ _ eq_refl).
  - simpl. lia.
  - repeat constructor; apply holdsb_spec; reflexivity.
Defined.

(** ** Aggregate exposure *)

(** X5 (netshrt_rule_lb, sflag_rule): in a built model every feasible
    assignment shorts at least one asset: some asset has a negative lower
    bound, its short indicator set and a positive short allocation no larger
    than the magnitude of the bound. *)
Theorem X5_some_asset_short (t : tables) (m : model) (v : assignment) :
  construct t = Ok m -> feasible m v ->
  exists i lb,
    In i (investments (data m))
    /\ dict_get (lower_asset_bounds (data m)) i = Some lb
    /\ lb < 0
    /\ v (d_s i) == 1
    /\ 0 < v (allocation_s i)
    /\ v (allocation_s i) <= - lb.
Proof.
  intros Hc Hf.
  destruct (feasible_totals t m v Hc Hf) as (_ & _ & Hlow).
  rewrite eval_total_short in Hlow. unfold net_lower_short_bound in Hlow.
  destruct (num_sum_pos_term (fun i => v (allocation_s i))
              (investments (data m))) as (i & Hi & Hpos); [lra |].
  destruct (lower_bound_defined t m i Hc Hi) as (lb & Hlb).
  destruct (feasible_at t m v i Hc Hf Hi)
    as (_ & _ & _ & Hds & _ & Hrow & _).
  rewrite (dict_value_get _ _ _ Hlb) in Hrow.
  exists i, lb. split; [exact Hi |]. split; [exact Hlb |].
  destruct Hds as [Hd | Hd]; rewrite Hd in Hrow.
  - lra.
  - repeat split; [lra | exact Hd | exact Hpos | lra].
Qed.

(** The theorem at two assets, the second shorted at 0.5. *)
Lemma X5_some_asset_short_witness :
  exists m,
    construct two_assets = Ok m
    /\ feasible m long_A_short_B
    /\ exists i, In i (investments (data m))
                 /\ 0 < long_A_short_B (allocation_s i).
Proof.
  eexists. split; [vm_compute; reflexivity |].
  match goal with
  | |- feasible ?M ?v /\ _ =>
      assert (Hf : feasible M v)
        by (apply feasibleb_spec; vm_compute; reflexivity)
  end.
  split; [exact Hf |].
  destruct (X5_some_asset_short two_assets _ _ eq_refl Hf)
    as (i & lb & Hi & _ & _ & _ & Hpos & _).
  exists i. split; assumption.
Defined.

(** X6 (the four aggregate rules): in a built model, under every feasible
    assignment, the total long allocation lies in [0, 1], the total short
    allocation in [0.5, 1], and so the net exposure, the sum of the net
    positions, in [-1, 0.5]. *)
Theorem X6_exposure_bounds (t : tables) (m : model) (v : assignment) :
  construct t = Ok m -> feasible m v ->
  let idx := investments (data m) in
  let long := num_sum (map (fun i => v (allocation_l i)) idx) in
  let short := num_sum (map (fun i => v (allocation_s i)) idx) in
  let net :=
    num_sum (map (fun i => v (allocation_l i) - v (allocation_s i)) idx) in
  0 <= long /\ long <= net_upper_long_bound
  /\ net_lower_short_bound <= short /\ short <= net_upper_short_bound
  /\ - (1) <= net /\ net <= 1 # 2.
Proof.
  intros Hc Hf idx long short net.
  destruct (feasible_totals t m v Hc Hf) as (Hlu & Hsu & Hsl).
  rewrite eval_total_long in Hlu. rewrite eval_total_short in Hsu, Hsl.
  fold idx in Hlu, Hsu, Hsl. fold long in Hlu. fold short in Hsu, Hsl.
  assert (Hl0 : 0 <= long).
  { apply num_sum_nonneg. intros i Hi.
    apply (feasible_at t m v i Hc Hf Hi). }
  assert (Hnet : net == long - short) by apply num_sum_minus.
  unfold net_upper_long_bound, net_upper_short_bound,
    net_lower_short_bound in *.
  repeat split; lra.
Qed.

(** The theorem at two assets: net exposure 0.05 - 0.5. *)
Lemma X6_exposure_bounds_witness :
  exists m,
    construct two_assets = Ok m
    /\ feasible m long_A_short_B
    /\ num_sum (map (fun i => long_A_short_B (allocation_l i)
                              - long_A_short_B (allocation_s i))
                    (investments (data m)))
       <= 1 # 2.
Proof.
  eexists. split; [vm_compute; reflexivity |].
  match goal with
  | |- feasible ?M ?v /\ _ =>
      assert (Hf : feasible M v)
        by (apply feasibleb_spec; vm_compute; reflexivity)
  end.
  split; [exact Hf |].
  apply (X6_exposure_bounds two_assets _ _ eq_refl Hf).
Defined.

(** ** Exceptions of the build *)

Lemma for_each_raise_inv {A B : Type} (f : A -> result B) (l : list A)
  (e : exn) :
  for_each f l = Raise e -> exists x, In x l /\ f x = Raise e.
Proof.
  induction l as [| x t IH]; simpl; intro H.
  - discriminate H.
  - destruct (f x) as [y | e'] eqn:E; simpl in H.
    + destruct (for_each f t) as [ys | e''] eqn:Et; simpl in H.
      * discriminate H.
      * ok_inj H. destruct (IH eq_refl) as (z & Hz & Hf).
        exists z. split; [right; exact Hz | exact Hf].
    + ok_inj H. exists x. split; [left; reflexivity | exact E].
Qed.

(** A comprehension whose body raises at some item raises. *)
Lemma for_each_raises {A B : Type} (f : A -> result B) (l : list A) :
  (exists x e, In x l /\ f x = Raise e) -> exists e, for_each f l = Raise e.
Proof.
  intros (x & e & Hx & Hf).
  destruct (for_each f l) as [ys | e'] eqn:E.
  - destruct (for_each_ok_each f l ys E x Hx) as (y & Hy & _).
    rewrite Hf in Hy. discriminate Hy.
  - exists e'. reflexivity.
Qed.

(** X7 (card_rule, on an empty table): with no row in the asset table the
    build raises [ValueError], whatever the covariance table: the cardinality
    rule compares two plain numbers and Pyomo refuses the Boolean. *)
Theorem X7_empty_table_rejected (t : tables) :
  array_df t = [] -> construct t = Raise ValueError.
Proof.
  intro H. unfold construct, declare_data, investment_strs.
  rewrite H. reflexivity.
Qed.

(** The theorem at an empty asset table beside a one-entry covariance
    table. *)
Lemma X7_empty_table_rejected_witness :
  construct {| array_df := [];
               cov_df := cov_table [("A"%string, "A"%string, 1)] |}
  = Raise ValueError.
Proof.
  apply X7_empty_table_rejected. reflexivity.
Defined.

(** X8 (cov_init): when the covariance table lacks an entry for some ordered
    pair of tickers of the asset table, the build raises [KeyError]. *)
Theorem X8_missing_covariance_rejected (t : tables) (i j : string) :
  In i (investment_strs t) -> In j (investment_strs t) ->
  cov_df t i j = None ->
  construct t = Raise KeyError.
Proof.
  intros Hi Hj Hnone. unfold construct, declare_data.
  destruct (for_each_raises
              (fun ij => c <- cov_init t (fst ij) (snd ij) ;; Ok (ij, c))
              (list_prod (Set_initialize (investment_strs t))
                         (Set_initialize (investment_strs t))))
    as (e & He).
  - exists (i, j), KeyError. split.
    + apply in_prod; apply Set_initialize_In; assumption.
    + unfold cov_init. simpl. rewrite Hnone. reflexivity.
  - rewrite He. cbn [bind].
    apply for_each_raise_inv in He. destruct He as ((a, b) & _ & Hab).
    unfold cov_init in Hab. simpl in Hab.
    destruct (cov_df t a b); simpl in Hab; [discriminate Hab |].
    ok_inj Hab. reflexivity.
Qed.

(** The theorem at two assets and a table without the pair (B, A). *)
Lemma X8_missing_covariance_rejected_witness :
  construct two_assets_missing_cov = Raise KeyError.
Proof.
  apply (X8_missing_covariance_rejected two_assets_missing_cov
           "B"%string "A"%string).
  - right. left. reflexivity.
  - left. reflexivity.
  - reflexivity.
Defined.

(** ** Values the solver left unset *)

Lemma bind_raise {A B : Type} (c : result A) (k : A -> result B) (e : exn) :
  bind c k = Raise e -> c = Raise e \/ exists a, c = Ok a /\ k a = Raise e.
Proof.
  destruct c as [a | e']; simpl; intro H.
  - right. exists a. split; [reflexivity | exact H].
  - left. ok_inj H. reflexivity.
Qed.

Lemma value_of_raise (vals : values) (x : var) (e : exn) :
  value_of vals x = Raise e -> e = TypeError.
Proof.
  unfold value_of. destruct (vals x); intro H; [discriminate H |].
  ok_inj H. reflexivity.
Qed.

Lemma value_of_set (vals : values) (x : var) (q : Q) :
  value_of vals x = Ok q -> vals x <> None.
Proof.
  unfold value_of. destruct (vals x); intro H; [discriminate | discriminate H].
Qed.

Lemma model_variable (t : tables) (m : model) (x : var) :
  construct t = Ok m -> In x (map fst (variables m)) ->
  exists i, In i (investments (data m))
            /\ (x = allocation_s i \/ x = allocation_l i
                \/ x = d_l i \/ x = d_s i).
Proof.
  intros Hc Hx.
  destruct (construct_shape t m Hc) as (_ & _ & Hv & _).
  rewrite Hv, !map_app, !in_app_iff in Hx. unfold Var in Hx.
  rewrite !map_map in Hx. simpl in Hx. rewrite !in_map_iff in Hx.
  destruct Hx as [(i & <- & Hi) | [(i & <- & Hi) | [(i & <- & Hi)
                                                   | (i & <- & Hi)]]];
    exists i; tauto.
Qed.

Section Unset.

Variable sqrt_pos : Q -> Q.

(** The derivation returns only if every variable of the model is set. *)
Lemma view_results_all_set (t : tables) (m : model) (vals : values)
  (r : report) (x : var) :
  construct t = Ok m -> view_results sqrt_pos m vals = Ok r ->
  In x (map fst (variables m)) -> vals x <> None.
Proof.
  intros Hc H Hx. unfold view_results in H.
  apply bind_ok in H as (t1 & _ & H). apply bind_ok in H as (t2 & _ & H).
  apply bind_ok in H as (t3 & H3 & H). apply bind_ok in H as (t4 & _ & H).
  apply bind_ok in H as (t5 & _ & H). apply bind_ok in H as (t6 & _ & H).
  apply bind_ok in H as (t7 & _ & H). apply bind_ok in H as (t8 & H8 & _).
  destruct (model_variable t m x Hc Hx) as (i & Hi & Hcase).
  destruct (for_each_ok_each _ _ _ H3 i Hi) as (y3 & Hy3 & _).
  destruct (for_each_ok_each _ _ _ H8 i Hi) as (y8 & Hy8 & _).
  apply bind_ok in Hy3 as (a & Ha & Hy3). apply bind_ok in Hy3 as (b & Hb & _).
  apply bind_ok in Hy8 as (l & Hl & Hy8). apply bind_ok in Hy8 as (s & Hs & _).
  destruct Hcase as [-> | [-> | [-> | ->]]];
    eauto using value_of_set.
Qed.

(** The derivation raises nothing but [TypeError]. *)
Lemma view_results_raise (t : tables) (m : model) (vals : values) (e : exn) :
  construct t = Ok m -> view_results sqrt_pos m vals = Raise e ->
  e = TypeError.
Proof.
  intros Hc H. unfold view_results in H.
  repeat
    (apply bind_raise in H;
     destruct H as [H | (? & _ & H)];
     [apply for_each_raise_inv in H; destruct H as (i & Hi & H);
      repeat
        (apply bind_raise in H; destruct H as [H | (? & _ & H)];
         [| idtac]);
      try discriminate H;
      try (apply value_of_raise in H; exact H);
      try (unfold net_value in H;
           repeat
             (apply bind_raise in H; destruct H as [H | (? & _ & H)];
              [| idtac]);
           try discriminate H;
           try (apply value_of_raise in H; exact H))
     |]).
  - exfalso. apply (return_defined t m i Hc Hi).
    unfold param_get in H.
    destruct (dict_get (returns (data m)) i); [discriminate H | reflexivity].
  - discriminate H.
Qed.

End Unset.

(** X9 (lines 110-116, after a solve that set no value): in a built model,
    when the solver leaves a variable of the model unset, the script raises
    [TypeError] whatever the status, and prints no figure. *)
Theorem X9_unset_value_raises (sqrt_pos : Q -> Q) (t : tables) (m : model)
  (opt_solve : solver) (x : var) :
  construct t = Ok m -> In x (map fst (variables m)) ->
  snd (opt_solve m) x = None ->
  script sqrt_pos t opt_solve = Raise TypeError.
Proof.
  intros Hc Hx Hnone. unfold script. rewrite Hc. cbn [bind].
  destruct (view_results sqrt_pos m (snd (opt_solve m))) as [r | e] eqn:E.
  - exfalso.
    apply (view_results_all_set sqrt_pos t m _ r x Hc E Hx), Hnone.
  - f_equal. apply (view_results_raise sqrt_pos t m _ e Hc E).
Qed.

(** The theorem at one asset, for an infeasible solve that set nothing. *)
Lemma X9_unset_value_raises_witness :
  script sqrt6 one_asset (fun _ => (Infeasible, fun _ => None))
  = Raise TypeError.
Proof.
  apply (X9_unset_value_raises sqrt6 one_asset _ _ (allocation_l "A")
           eq_refl).
  - right. left. reflexivity.
  - reflexivity.
Defined.

(** ** Parameters of a ticker listed more than once *)

Lemma dict_zip_map {A : Type} (f : A -> string) (g : A -> Q) (rows : list A) :
  dict_zip (map f rows) (map g rows) = map (fun r => (f r, g r)) rows.
Proof.
  unfold dict_zip. induction rows as [| r rows IH]; simpl.
  - reflexivity.
  - rewrite IH. reflexivity.
Qed.

Lemma dict_fold_other (d : dict) (k : string) :
  (forall kv, In kv d -> fst kv <> k) ->
  forall acc,
    fold_left
      (fun acc kv => if String.eqb (fst kv) k then Some (snd kv) else acc)
      d acc = acc.
Proof.
  induction d as [| kv d IH]; simpl; intros H acc.
  - reflexivity.
  - rewrite IH by (intros kv' Hin; apply H; right; exact Hin).
    destruct (String.eqb (fst kv) k) eqn:E; [| reflexivity].
    apply String.eqb_eq in E. exfalso.
    apply (H kv); [left; reflexivity | exact E].
Qed.

(** Lookup returns the last binding of a key. *)
Lemma dict_get_last (d1 d2 : dict) (k : string) (q : Q) :
  (forall kv, In kv d2 -> fst kv <> k) ->
  dict_get (d1 ++ (k, q) :: d2) k = Some q.
Proof.
  intro H. unfold dict_get. rewrite fold_left_app. simpl.
  rewrite String.eqb_refl. apply dict_fold_other, H.
Qed.

Lemma dict_zip_last_row {A : Type} (f : A -> string) (g : A -> Q)
  (l1 l2 : list A) (r : A) :
  (forall r', In r' l2 -> f r' <> f r) ->
  dict_get (dict_zip (map f (l1 ++ r :: l2)) (map g (l1 ++ r :: l2))) (f r)
  = Some (g r).
Proof.
  intro H. rewrite dict_zip_map, map_app. cbn [map].
  apply dict_get_last. intros kv Hin. apply in_map_iff in Hin.
  destruct Hin as (r' & <- & Hr'). simpl. apply H, Hr'.
Qed.

(** X10 (ret_dict, ub_dict, lb_dict): when a ticker is listed in several rows
    of the asset table, the built model has it in its index set and takes its
    return and both bounds from the last of these rows. *)
Theorem X10_last_row_wins (t : tables) (m : model) (l1 l2 : list row)
  (r : row) :
  construct t = Ok m ->
  array_df t = l1 ++ r :: l2 ->
  (forall r', In r' l2 -> col_tickers r' <> col_tickers r) ->
  In (col_tickers r) (investments (data m))
  /\ dict_get (returns (data m)) (col_tickers r) = Some (col_returns r)
  /\ dict_get (upper_asset_bounds (data m)) (col_tickers r)
     = Some (col_ubounds r)
  /\ dict_get (lower_asset_bounds (data m)) (col_tickers r)
     = Some (col_lbounds r).
Proof.
  intros Hc Hrows Hlast.
  destruct (construct_shape t m Hc) as (Hd & _).
  destruct (declare_data_fields t _ Hd) as (Hi & Hr & Hu & Hl & _).
  rewrite Hi, Hr, Hu, Hl.
  unfold investment_strs, return_floats, ubounds, lbounds. rewrite Hrows.
  split; [| split; [| split]]; try (apply dict_zip_last_row, Hlast).
  apply Set_initialize_In, in_map, in_or_app. right. left. reflexivity.
Qed.

(** The theorem at the table that lists A twice: the second row's figures
    are the model's. *)
Lemma X10_last_row_wins_witness :
  exists m,
    construct repeated_ticker = Ok m
    /\ investments (data m) = ["A"%string]
    /\ dict_get (lower_asset_bounds (data m)) "A" = Some (- (1)).
Proof.
  eexists. split; [vm_compute; reflexivity |]. split; [reflexivity |].
  apply (X10_last_row_wins repeated_ticker _
           [mk_row "A" (1 # 1000) (1 # 10) (1 # 10)] []
           (mk_row "A" (3 # 1000) 1 (- (1))) eq_refl eq_refl).
  intros r' [].
Defined.

(* ================================================================== *)
(** * Further properties of the derived figures *)

Lemma np_div_nan (a : np_float64) : np_div a fl_nan = fl_nan.
Proof. destruct a; reflexivity. Qed.

Lemma np_sqrt_negative (sqrt_pos : Q -> Q) (x : Q) :
  x < 0 -> np_sqrt sqrt_pos x = fl_nan.
Proof.
  intro H. unfold np_sqrt, Qneg_bool.
  destruct (Qle_bool 0 x) eqn:E; [| reflexivity].
  apply Qle_bool_iff in E. lra.
Qed.

(** For feasible values the weighted totals are the plain totals. *)
Lemma weighted_totals_plain (t : tables) (m : model) (v : assignment) :
  construct t = Ok m -> feasible m v ->
  num_sum (map (fun i => v (d_l i) * v (allocation_l i))
               (investments (data m)))
  == num_sum (map (fun i => v (allocation_l i)) (investments (data m)))
  /\ num_sum (map (fun i => v (d_s i) * v (allocation_s i))
                  (investments (data m)))
     == num_sum (map (fun i => v (allocation_s i)) (investments (data m))).
Proof.
  intros Hc Hf. split; apply num_sum_ext; intros i Hi;
    destruct (feasible_at t m v i Hc Hf Hi)
      as (Hs & Hl & Hdl & Hds & Hub & Hlb & _).
  - apply (weighted_is_plain _ _ _ Hdl Hl Hub).
  - apply (weighted_is_plain _ _ (- dict_value (lower_asset_bounds (data m)) i)
             Hds Hs).
    lra.
Qed.

(** X11 (obj_rule against lines 110-111): when the variables hold numbers,
    the value of the objective at them is the reported return minus [rho]
    times the reported variance. *)
Theorem X11_objective_from_report (sqrt_pos : Q -> Q) (t : tables)
  (m : model) (vals : values) (v : assignment) :
  construct t = Ok m ->
  (forall x, In x (map fst (variables m)) -> vals x = Some (v x)) ->
  exists r,
    view_results sqrt_pos m vals = Ok r
    /\ eval v (obj_expr (OBJ m)) == rs r - rho * covs r.
Proof.
  intros Hc Hv. exists (report_of sqrt_pos m v).
  split; [apply (view_results_values sqrt_pos t m vals v Hc Hv) |].
  destruct (construct_shape t m Hc) as (Hd & _ & _ & Ho & _).
  destruct (declare_data_fields t _ Hd) as (_ & _ & _ & _ & Hcov).
  unfold Objective in Ho. apply bind_ok in Ho as (e & He & Ho). ok_inj Ho.
  rewrite <- Ho. cbn [obj_expr].
  rewrite (obj_rule_value t (data m) e v Hd He).
  unfold objective_spec. cbn [rs covs report_of].
  rewrite Hcov, map_map, num_sum_list_prod. simpl. reflexivity.
Qed.

(** The theorem at two assets. *)
Lemma X11_objective_from_report_witness :
  exists m r,
    construct two_assets = Ok m
    /\ view_results sqrt6 m (set_values long_A_short_B) = Ok r
    /\ eval long_A_short_B (obj_expr (OBJ m)) == rs r - rho * covs r.
Proof.
  eexists.
  destruct (X11_objective_from_report sqrt6 two_assets _
              (set_values long_A_short_B) long_A_short_B
              eq_refl (fun x _ => eq_refl)) as (r & Hr & He).
  exists r. split; [reflexivity |]. split; assumption.
Defined.

(** X12 (lines 112-116 on feasible values): when the variables hold numbers
    that are feasible for the built model, the reported number of names is
    the number of longs plus the number of shorts and is at most 15, the
    reported long total is at most 1 and the reported short total lies
    between 0.5 and 1. *)
Theorem X12_report_within_limits (sqrt_pos : Q -> Q) (t : tables)
  (m : model) (vals : values) (v : assignment) :
  construct t = Ok m ->
  (forall x, In x (map fst (variables m)) -> vals x = Some (v x)) ->
  feasible m v ->
  exists r,
    view_results sqrt_pos m vals = Ok r
    /\ cards r == clong r + cshrt r
    /\ cards r <= card
    /\ tlong r <= net_upper_long_bound
    /\ net_lower_short_bound <= tshrt r
    /\ tshrt r <= net_upper_short_bound.
Proof.
  intros Hc Hv Hf. exists (report_of sqrt_pos m v).
  split; [apply (view_results_values sqrt_pos t m vals v Hc Hv) |].
  cbn [cards clong cshrt tlong tshrt report_of].
  destruct (weighted_totals_plain t m v Hc Hf) as (Hl & Hs).
  destruct (feasible_totals t m v Hc Hf) as (Hlu & Hsu & Hsl).
  rewrite eval_total_long in Hlu. rewrite eval_total_short in Hsu, Hsl.
  split; [apply num_sum_plus |].
  split; [apply (feasible_cardinality t m v Hc Hf) |].
  rewrite Hl, Hs. repeat split; assumption.
Qed.

(** The theorem at two assets. *)
Lemma X12_report_within_limits_witness :
  exists m r,
    construct two_assets = Ok m
    /\ view_results sqrt6 m (set_values long_A_short_B) = Ok r
    /\ cards r == clong r + cshrt r.
Proof.
  eexists.
  destruct (X12_report_within_limits sqrt6 two_assets _
              (set_values long_A_short_B) long_A_short_B
              eq_refl (fun x _ => eq_refl)) as (r & Hr & He & _).
  - apply feasibleb_spec. vm_compute. reflexivity.
  - exists r. split; [reflexivity |]. split; assumption.
Defined.

(** X13 (lines 117-120, on a table that is not positive semi-definite): when
    the variables hold numbers and the variance derived from them is
    negative, the report is returned with nan for the daily volatility and
    for the Sharpe figure. *)
Theorem X13_negative_variance_nan (sqrt_pos : Q -> Q) (t : tables)
  (m : model) (opt_solve : solver) (v : assignment) :
  construct t = Ok m ->
  (forall x, In x (map fst (variables m)) ->
             snd (opt_solve m) x = Some (v x)) ->
  exists r,
    script sqrt_pos t opt_solve = Ok r
    /\ (covs r < 0 -> daily_vol r = fl_nan /\ ann_sharpe r = fl_nan).
Proof.
  intros Hc Hv. exists (report_of sqrt_pos m v). split.
  - unfold script. rewrite Hc. cbn [bind].
    apply (view_results_values sqrt_pos t m _ v Hc Hv).
  - intro Hneg.
    assert (E : np_sqrt sqrt_pos (covs (report_of sqrt_pos m v)) = fl_nan)
      by (apply np_sqrt_negative, Hneg).
    split; [exact E |].
    change (np_div (np_mul (np_sqrt sqrt_pos 252)
                           (rs (report_of sqrt_pos m v)))
                   (np_sqrt sqrt_pos (covs (report_of sqrt_pos m v)))
            = fl_nan).
    rewrite E. apply np_div_nan.
Qed.

(** The theorem at one asset with a negative covariance entry, shorted at
    0.5. *)
Lemma X13_negative_variance_nan_witness :
  exists m r,
    construct one_asset_negative_cov = Ok m
    /\ script sqrt6 one_asset_negative_cov
         (fun _ => (Optimal,
                    set_values (assign [(allocation_s "A", 1 # 2);
                                        (d_s "A", 1)])))
       = Ok r
    /\ covs r < 0
    /\ ann_sharpe r = fl_nan.
Proof.
  eexists.
  destruct (X13_negative_variance_nan sqrt6 one_asset_negative_cov _
              (fun _ => (Optimal,
                         set_values (assign [(allocation_s "A", 1 # 2);
                                             (d_s "A", 1)])))
              (assign [(allocation_s "A", 1 # 2); (d_s "A", 1)])
              eq_refl (fun x _ => eq_refl)) as (r & Hr & Hn).
  exists r. split; [reflexivity |]. split; [exact Hr |].
  assert (Hneg : covs r < 0).
  { vm_compute in Hr. apply Ok_inj in Hr. subst r. reflexivity. }
  split; [exact Hneg | apply Hn, Hneg].
Defined.

(* ================================================================== *)
(** * Variables of the built model *)

Lemma vars_py_add (a b : expr) (x : var) :
  In x (vars_of (py_add a b)) -> In x (vars_of a) \/ In x (vars_of b).
Proof.
  destruct a, b; cbn [py_add vars_of]; intro H;
    try (apply in_app_or in H); tauto.
Qed.

Lemma vars_py_sub (a b : expr) (x : var) :
  In x (vars_of (py_sub a b)) -> In x (vars_of a) \/ In x (vars_of b).
Proof.
  destruct a, b; cbn [py_sub vars_of]; intro H;
    try (apply in_app_or in H); tauto.
Qed.

Lemma vars_py_mul (a b : expr) (x : var) :
  In x (vars_of (py_mul a b)) -> In x (vars_of a) \/ In x (vars_of b).
Proof.
  destruct a, b; cbn [py_mul vars_of]; intro H;
    try (apply in_app_or in H); tauto.
Qed.

Lemma vars_fold_py_add (l : list expr) (x : var) :
  forall acc,
    In x (vars_of (fold_left py_add l acc)) ->
    In x (vars_of acc) \/ exists e, In e l /\ In x (vars_of e).
Proof.
  induction l as [| e t IH]; simpl; intros acc H.
  - left. exact H.
  - apply IH in H. destruct H as [H | (e' & He' & H)].
    + apply vars_py_add in H. destruct H as [H | H]; [left; exact H |].
      right. exists e. split; [left; reflexivity | exact H].
    + right. exists e'. split; [right; exact He' | exact H].
Qed.

(** A variable of a sum is a variable of one of its terms. *)
Lemma vars_py_sum {A : Type} (f : A -> expr) (l : list A) (x : var) :
  In x (vars_of (py_sum (map f l))) ->
  exists a, In a l /\ In x (vars_of (f a)).
Proof.
  intro H. unfold py_sum in H. apply vars_fold_py_add in H.
  destruct H as [[] | (e & He & H)].
  apply in_map_iff in He. destruct He as (a & <- & Ha).
  exists a. split; assumption.
Qed.

(** The value of an expression depends only on the variables it mentions. *)
Lemma eval_ext (v v' : assignment) (e : expr) :
  (forall x, In x (vars_of e) -> v x == v' x) -> eval v e == eval v' e.
Proof.
  induction e as [q | x | a IHa | a IHa b IHb | a IHa b IHb | a IHa b IHb];
    cbn [eval vars_of]; intro H.
  - reflexivity.
  - apply H. left. reflexivity.
  - rewrite IHa by exact H. reflexivity.
  - rewrite IHa, IHb; [reflexivity | |];
      intros x Hx; apply H, in_or_app; tauto.
  - rewrite IHa, IHb; [reflexivity | |];
      intros x Hx; apply H, in_or_app; tauto.
  - rewrite IHa, IHb; [reflexivity | |];
      intros x Hx; apply H, in_or_app; tauto.
Qed.

Lemma holds_ext (v v' : assignment) (r : relation) :
  (forall x, In x (vars_of_relation r) -> v x == v' x) ->
  holds v r <-> holds v' r.
Proof.
  destruct r as [a b | a b]; cbn [holds vars_of_relation]; intro H;
    rewrite (eval_ext v v' a), (eval_ext v v' b);
    try reflexivity; intros x Hx; apply H, in_or_app; tauto.
Qed.

Lemma in_domain_ext (dom : domain) (p q : Q) :
  p == q -> in_domain dom p <-> in_domain dom q.
Proof. intro H. destruct dom; simpl; rewrite H; reflexivity. Qed.

Lemma declared_vars (t : tables) (m : model) (i : string) :
  construct t = Ok m -> In i (investments (data m)) ->
  In (allocation_s i) (map fst (variables m))
  /\ In (allocation_l i) (map fst (variables m))
  /\ In (d_l i) (map fst (variables m))
  /\ In (d_s i) (map fst (variables m)).
Proof.
  intros Hc Hi.
  destruct (construct_shape t m Hc) as (_ & _ & Hv & _).
  rewrite Hv, !map_app. unfold Var. rewrite !map_map. simpl.
  rewrite !in_app_iff.
  assert (K : forall mk : string -> var,
             In (mk i) (map mk (investments (data m))))
    by (intro mk; apply in_map, Hi).
  pose proof (K allocation_s). pose proof (K allocation_l).
  pose proof (K d_l). pose proof (K d_s). tauto.
Qed.

Lemma constraint_vars_declared (t : tables) (m : model) (r : relation)
  (x : var) :
  construct t = Ok m -> In r (constraints m) ->
  In x (vars_of_relation r) -> In x (map fst (variables m)).
Proof.
  intros Hc. revert r x.
  assert (G : Forall (fun r => forall x, In x (vars_of_relation r) ->
                                         In x (map fst (variables m)))
                     (constraints m)).
  2:{ intros r x Hr. rewrite Forall_forall in G. apply (G r Hr). }
  destruct (construct_shape t m Hc)
    as (_ & _ & _ & _ & _ & H1 & H2 & H3 & H4 & H5 & H6 & H7 & H8).
  assert (D := declared_vars t m).
  assert (Total : forall mk : string -> var,
             (forall j, In j (investments (data m)) ->
                        In (mk j) (map fst (variables m))) ->
             forall x,
               In x (vars_of (py_sum (map (fun i => V (mk i))
                                          (investments (data m))))) ->
               In x (map fst (variables m))).
  { intros mk Hmk x Hx. apply vars_py_sum in Hx.
    destruct Hx as (j & Hj & [<- | []]). apply Hmk, Hj. }
  unfold constraints. rewrite H1, H2, H3, H4, H5, H6, H7, H8, !map_map.
  repeat (apply Forall_app; split);
    try (apply Forall_forall; intros r Hr; apply in_map_iff in Hr;
         destruct Hr as (i & <- & Hi); intros x Hx).
  - destruct (D i Hc Hi) as (_ & Dl & Ddl & _). simpl in Hx.
    destruct Hx as [<- | [<- | []]]; assumption.
  - destruct (D i Hc Hi) as (Ds & _ & _ & Dds). simpl in Hx.
    destruct Hx as [<- | [<- | []]]; assumption.
  - constructor; [| constructor]. intros x Hx.
    unfold cardinality_row in Hx. cbn [vars_of_relation vars_of] in Hx.
    rewrite app_nil_r in Hx. apply vars_py_sum in Hx.
    destruct Hx as (i & Hi & Hx).
    destruct (D i Hc Hi) as (_ & _ & Ddl & Dds). simpl in Hx.
    destruct Hx as [<- | [<- | []]]; assumption.
  - destruct (D i Hc Hi) as (_ & _ & Ddl & Dds). simpl in Hx.
    destruct Hx as [<- | [<- | []]]; assumption.
  - cbn [snd net_long_row vars_of_relation vars_of] in Hx.
    rewrite app_nil_r in Hx. apply (Total allocation_l); [| exact Hx].
    intros j Hj. apply (D j Hc Hj).
  - cbn [snd net_long_row vars_of_relation vars_of] in Hx.
    rewrite app_nil_r in Hx. apply (Total allocation_l); [| exact Hx].
    intros j Hj. apply (D j Hc Hj).
  - cbn [snd net_short_upper_row vars_of_relation vars_of] in Hx.
    rewrite app_nil_r in Hx. apply (Total allocation_s); [| exact Hx].
    intros j Hj. apply (D j Hc Hj).
  - cbn [snd net_short_lower_row vars_of_relation vars_of] in Hx.
    rewrite app_nil_r in Hx. apply (Total allocation_s); [| exact Hx].
    intros j Hj. apply (D j Hc Hj).
Qed.

Lemma objective_vars_declared (t : tables) (m : model) (x : var) :
  construct t = Ok m ->
  In x (vars_of (obj_expr (OBJ m))) -> In x (map fst (variables m)).
Proof.
  intros Hc Hx.
  destruct (construct_shape t m Hc) as (Hd & _ & _ & Ho & _).
  destruct (declare_data_fields t _ Hd) as (_ & _ & _ & _ & Hcov).
  assert (D := declared_vars t m).
  unfold Objective in Ho. apply bind_ok in Ho as (e & He & Ho). ok_inj Ho.
  rewrite <- Ho in Hx. cbn [obj_expr] in Hx.
  unfold obj_rule in He. apply bind_ok in He as (terms & Ht & He).
  apply Ok_inj in He. subst e.
  apply (for_each_ok_map _ _ _ (return_term (data m))) in Ht. subst terms.
  apply vars_py_sub in Hx. destruct Hx as [Hx | Hx].
  - apply vars_py_sum in Hx. destruct Hx as (i & Hi & Hx).
    destruct (D i Hc Hi) as (Ds & Dl & _). simpl in Hx.
    destruct Hx as [<- | [<- | []]]; assumption.
  - apply vars_py_mul in Hx. destruct Hx as [[] | Hx].
    rewrite Hcov, map_map in Hx. apply vars_py_sum in Hx.
    destruct Hx as ((i, j) & Hij & Hx). apply in_prod_iff in Hij.
    destruct Hij as (Hi & Hj).
    destruct (D i Hc Hi) as (Dsi & Dli & _).
    destruct (D j Hc Hj) as (Dsj & Dlj & _). simpl in Hx.
    destruct Hx as [<- | [<- | [<- | [<- | []]]]]; assumption.
Qed.

(** X14 (the variable, objective and constraint declarations together): in a
    built model every variable that the objective or a constraint mentions
    is one of the declared variables; hence two assignments that agree on the
    declared variables are feasible together and give the objective the same
    value. *)
Theorem X14_only_declared_variables (t : tables) (m : model) :
  construct t = Ok m ->
  (forall r x, In r (constraints m) -> In x (vars_of_relation r) ->
               In x (map fst (variables m)))
  /\ (forall x, In x (vars_of (obj_expr (OBJ m))) ->
                In x (map fst (variables m)))
  /\ (forall v v',
        (forall x, In x (map fst (variables m)) -> v x == v' x) ->
        (feasible m v <-> feasible m v')
        /\ eval v (obj_expr (OBJ m)) == eval v' (obj_expr (OBJ m))).
Proof.
  intro Hc.
  assert (Hcv := fun r x => constraint_vars_declared t m r x Hc).
  assert (Hov := fun x => objective_vars_declared t m x Hc).
  split; [exact Hcv |]. split; [exact Hov |].
  intros v v' Hag. split.
  - assert (Dom : forall xd, In xd (variables m) ->
                   (in_domain (snd xd) (v (fst xd))
                    <-> in_domain (snd xd) (v' (fst xd)))).
    { intros xd Hxd. apply in_domain_ext, Hag, in_map, Hxd. }
    assert (Row : forall r, In r (constraints m) ->
                   (holds v r <-> holds v' r)).
    { intros r Hin. apply holds_ext. intros x Hx.
      apply Hag, (Hcv r x Hin Hx). }
    unfold feasible. rewrite !Forall_forall.
    split; intros (Hd & Hr); split.
    + intros xd Hxd. apply (Dom xd Hxd), Hd, Hxd.
    + intros r Hin. apply (Row r Hin), Hr, Hin.
    + intros xd Hxd. apply (Dom xd Hxd), Hd, Hxd.
    + intros r Hin. apply (Row r Hin), Hr, Hin.
  - apply eval_ext. intros x Hx. apply Hag, Hov, Hx.
Qed.

(** The theorem at two assets. *)
Lemma X14_only_declared_variables_witness :
  exists m,
    construct two_assets = Ok m
    /\ forall x, In x (vars_of (obj_expr (OBJ m))) ->
                 In x (map fst (variables m)).
Proof.
  eexists. split; [vm_compute; reflexivity |].
  apply (X14_only_declared_variables two_assets _ eq_refl).
Defined.

(* ================================================================== *)
(** * The feasible set *)

Lemma Forall_Var (P : var * domain -> Prop) (mk : string -> var)
  (idx : list string) (dom : domain) :
  (forall i, In i idx -> P (mk i, dom)) -> Forall P (Var mk idx dom).
Proof.
  intro H. apply Forall_forall. intros xd Hxd. unfold Var in Hxd.
  apply in_map_iff in Hxd. destruct Hxd as (i & <- & Hi). apply H, Hi.
Qed.

Lemma Forall_rows (P : relation -> Prop) (g : string -> string * relation)
  (idx : list string) :
  (forall i, In i idx -> P (snd (g i))) -> Forall P (map snd (map g idx)).
Proof.
  intro H. apply Forall_forall. intros r Hr. rewrite map_map in Hr.
  apply in_map_iff in Hr. destruct Hr as (i & <- & Hi). apply H, Hi.
Qed.

Lemma feasible_iff_conditions (t : tables) (m : model) (v : assignment) :
  construct t = Ok m ->
  feasible m v <-> model_conditions (data m) v.
Proof.
  intro Hc. split.
  - intro Hf. unfold model_conditions.
    destruct (feasible_totals t m v Hc Hf) as (Hlu & Hsu & Hsl).
    rewrite eval_total_long in Hlu. rewrite eval_total_short in Hsu, Hsl.
    split; [intros i Hi; apply (feasible_at t m v i Hc Hf Hi) |].
    split; [apply (feasible_cardinality t m v Hc Hf) |].
    repeat split; assumption.
  - intros (Hper & Hcard & Hlu & Hsu & Hsl).
    destruct (construct_shape t m Hc)
      as (_ & _ & Hv & _ & _ & H1 & H2 & H3 & H4 & H5 & H6 & H7 & H8).
    split.
    + rewrite Hv. repeat (apply Forall_app; split);
        apply Forall_Var; intros i Hi; apply (Hper i Hi).
    + unfold constraints. rewrite H1, H2, H3, H4, H5, H6, H7, H8.
      repeat (apply Forall_app; split);
        try (apply Forall_rows; intros i Hi).
      * apply (Hper i Hi).
      * apply (Hper i Hi).
      * constructor; [| constructor]. apply eval_cardinality_row, Hcard.
      * apply (Hper i Hi).
      * cbn [snd net_long_row holds]. rewrite eval_total_long. exact Hlu.
      * cbn [snd net_long_row holds]. rewrite eval_total_long. exact Hlu.
      * cbn [snd net_short_upper_row holds]. rewrite eval_total_short.
        exact Hsu.
      * cbn [snd net_short_lower_row holds]. rewrite eval_total_short.
        exact Hsl.
Qed.

(** X15 (all constraint and variable declarations): for a built model an
    assignment is feasible exactly when, for every asset, both allocations
    are non-negative, both indicators are 0 or 1, [l <= d_l * ub],
    [-s >= d_s * lb] and [d_l + d_s <= 1], and in aggregate
    [sum (d_l + d_s) <= 15], [sum l <= 1] and [0.5 <= sum s <= 1]; nothing
    bounds the long total from below. *)
Theorem X15_feasible_set (t : tables) (m : model) (v : assignment) :
  construct t = Ok m ->
  feasible m v <-> model_conditions (data m) v.
Proof. exact (feasible_iff_conditions t m v). Qed.

(** The theorem at two assets. *)
Lemma X15_feasible_set_witness :
  exists m,
    construct two_assets = Ok m /\ model_conditions (data m) long_A_short_B.
Proof.
  eexists. split; [vm_compute; reflexivity |].
  apply (X15_feasible_set two_assets _ _ eq_refl).
  apply feasibleb_spec. vm_compute. reflexivity.
Defined.

Lemma set_from_NoDup (l : list string) :
  forall seen, NoDup (set_from seen l).
Proof.
  induction l as [| x t IH]; simpl; intro seen.
  - constructor.
  - destruct (existsb (String.eqb x) seen); [apply IH |].
    constructor; [| apply IH].
    intro Hx. apply set_from_In in Hx. destruct Hx as (_ & Hn).
    apply Hn. left. reflexivity.
Qed.

(** The index set of a built model lists each ticker once. *)
Lemma investments_NoDup (t : tables) (m : model) :
  construct t = Ok m -> NoDup (investments (data m)).
Proof.
  intro Hc. destruct (construct_shape t m Hc) as (Hd & _).
  destruct (declare_data_fields t _ Hd) as (Hi & _).
  rewrite Hi. apply set_from_NoDup.
Qed.

(** Over a list without repetition, a sum that is [c] at one member and zero
    elsewhere is [c]. *)
Lemma num_sum_single (c : Q) (i : string) (l : list string) :
  NoDup l -> In i l ->
  num_sum (map (fun j => if String.eqb j i then c else 0) l) == c.
Proof.
  induction l as [| x t IH]; intros Hnd Hi; [contradiction |].
  inversion Hnd as [| ? ? Hx Ht]; subst.
  cbn [map]. rewrite num_sum_cons.
  destruct Hi as [-> | Hi].
  - rewrite String.eqb_refl. rewrite num_sum_zero; [ring |].
    intros j Hj. destruct (String.eqb j i) eqn:E; [| reflexivity].
    apply String.eqb_eq in E. subst j. contradiction.
  - destruct (String.eqb x i) eqn:E.
    + apply String.eqb_eq in E. subst x. contradiction.
    + rewrite (IH Ht Hi). ring.
Qed.

(** X16 (sflag_rule with netshrt_rule_lb): a built model in which some asset
    has a lower bound of -0.5 or less is feasible: shorting that asset at 0.5
    and holding nothing else satisfies every constraint. *)
Theorem X16_feasible_with_short_room (t : tables) (m : model) (i : string)
  (lb : Q) :
  construct t = Ok m -> In i (investments (data m)) ->
  dict_get (lower_asset_bounds (data m)) i = Some lb ->
  lb <= - (1 # 2) ->
  feasible m (short_only i).
Proof.
  intros Hc Hi Hlb Hroom.
  pose proof (investments_NoDup t m Hc) as Hnd.
  apply (feasible_iff_conditions t m (short_only i) Hc).
  unfold model_conditions. split; [| split; [| split; [| split]]].
  - intros j Hj. cbn [short_only].
    destruct (String.eqb j i) eqn:E.
    + apply String.eqb_eq in E. subst j.
      rewrite (dict_value_get _ _ _ Hlb).
      repeat split; try lra; try (right; reflexivity); left; reflexivity.
    + repeat split; try lra; left; reflexivity.
  - cbn [short_only].
    rewrite (num_sum_ext _ (fun j => if String.eqb j i then 1 else 0)).
    + rewrite (num_sum_single 1 i _ Hnd Hi). unfold card. lra.
    + intros j _. destruct (String.eqb j i); ring.
  - cbn [short_only]. rewrite num_sum_zero by reflexivity.
    unfold net_upper_long_bound. lra.
  - cbn [short_only]. rewrite (num_sum_single (1 # 2) i _ Hnd Hi).
    unfold net_upper_short_bound. lra.
  - cbn [short_only]. rewrite (num_sum_single (1 # 2) i _ Hnd Hi).
    unfold net_lower_short_bound. lra.
Qed.

(** The theorem at one asset with bounds [-1, 1]. *)
Lemma X16_feasible_with_short_room_witness :
  exists m,
    construct one_asset_signed = Ok m /\ feasible m (short_only "A").
Proof.
  eexists. split; [vm_compute; reflexivity |].
  apply (X16_feasible_with_short_room one_asset_signed _ "A"%string (- (1))
           eq_refl).
  - left. reflexivity.
  - reflexivity.
  - discriminate.
Defined.
